(** * Flood-risk dashboard (app.py): cluster-to-risk interpretation

    A shallow embedding of [src/app.py]: the labelling of K-Means cluster
    centres by centroid elevation ([get_cluster_info]), the prediction block
    of the first tab and the centroid table of the second tab, together with
    the properties the specification states about them.

    The numeric libraries the script calls (pandas, scikit-learn, joblib) are
    not part of the repository.  The scaler and the model are records of
    functions; the indexer that [DataFrame.sort_values] computes is a
    parameter [nargsort] of the definitions, constrained in the theorems by
    what pandas documents for the call the script makes. *)

From Stdlib Require Import List ZArith Bool Arith Lia String Ascii.
From Stdlib Require Import Permutation Sorted.
From Stdlib Require Import DecimalString DecimalNat.
Import ListNotations.

Open Scope string_scope.

(** ** Binary64 values, as far as the script compares them *)

Module Float64.

(** Every finite double is an integer multiple of [2^-1074]; [Fin m] stands
    for [m * 2^-1074].  Both zeros are [Fin 0]: they compare equal. *)
Inductive float : Type :=
| NaN
| NegInf
| Fin (m : Z)
| PosInf.

Definition isnan (x : float) : bool :=
  match x with NaN => true | _ => false end.


(** IEEE comparisons: every comparison with a NaN is false. *)
Definition ltb (x y : float) : bool :=
  match x, y with
  | NaN, _ | _, NaN => false
  | NegInf, NegInf => false
  | NegInf, _ => true
  | Fin _, NegInf => false
  | Fin a, Fin b => (a <? b)%Z
  | Fin _, PosInf => true
  | PosInf, _ => false
  end.

Definition eqb (x y : float) : bool :=
  match x, y with
  | NegInf, NegInf | PosInf, PosInf => true
  | Fin a, Fin b => (a =? b)%Z
  | _, _ => false
  end.

Definition leb (x y : float) : bool := ltb x y || eqb x y.

(** The order of an ascending sort with [na_position='last']: the IEEE order
    on the other values, every NaN after them. *)
Definition na_last_leb (x y : float) : bool :=
  isnan y || (negb (isnan x) && leb x y).

(** A whole number of the unit of the feature (mm, mdpl) as a double. *)
Definition of_Z (z : Z) : float := Fin (z * 2 ^ 1074).

End Float64.

Import Float64.

(** ** The part of the Python runtime the script relies on *)

(** Exceptions that can leave a statement of the script. *)
Inductive exn : Type :=
| KeyError (k : nat)
| IndexError
| NameError (name : string)
| FileNotFoundError
| AttributeError (attr : string)
| ValueError (msg : string).


Inductive result (A : Type) : Type :=
| Ok (a : A)
| Raise (e : exn).
Arguments Ok {A} a.
Arguments Raise {A} e.

Definition bind {A B : Type} (r : result A) (k : A -> result B) : result B :=
  match r with
  | Ok a => k a
  | Raise e => Raise e
  end.

Notation "x <- r ;; k" := (bind r (fun x => k))
  (at level 61, r at next level, right associativity).

(** [xs[i]] on a Python list. *)
Definition getitem {A : Type} (xs : list A) (i : nat) : result A :=
  match nth_error xs i with
  | Some a => Ok a
  | None => Raise IndexError
  end.

(** [f"{i}"] for a non-negative [int]. *)
Definition str (i : nat) : string := NilZero.string_of_uint (Nat.to_uint i).

(** [for i in range(n)], threading the variables the body assigns. *)
Fixpoint for_in {A : Type} (body : nat -> A -> result A) (range : list nat)
    (acc : A) : result A :=
  match range with
  | [] => Ok acc
  | i :: rest => acc' <- body i acc ;; for_in body rest acc'
  end.

(** A [dict] with integer keys and string values, in insertion order. *)
Module Dict.

Definition dict : Type := list (nat * string).

Definition keys (d : dict) : list nat := map fst d.

(** [d[k] = v]: overwrite in place when [k] is a key, append otherwise. *)
Fixpoint set (d : dict) (k : nat) (v : string) : dict :=
  match d with
  | [] => [(k, v)]
  | (k', v') :: rest =>
      if Nat.eqb k k' then (k, v) :: rest else (k', v') :: set rest k v
  end.

Fixpoint get (d : dict) (k : nat) : option string :=
  match d with
  | [] => None
  | (k', v) :: rest => if Nat.eqb k k' then Some v else get rest k
  end.

(** [d[k]] as an expression. *)
Definition getitem (d : dict) (k : nat) : result string :=
  match get d k with
  | Some v => Ok v
  | None => Raise (KeyError k)
  end.

End Dict.


(** ** The collaborators: scikit-learn objects and pandas frames *)

(** A 2-feature vector in the fixed order (rainfall, elevation). *)
Abbreviation features := (float * float)%type.

(** The scaler unpickled from [scaler.joblib].  Both directions validate
    their input inside the library and may raise. *)
Record Scaler : Type := {
  transform : features -> result features;
  inverse_transform : list features -> result (list features)
}.

(** The K-Means model unpickled from [kmeans_model.joblib]. *)
Record Model : Type := {
  cluster_centers_ : list features;
  predict : features -> result nat
}.

(** A row of the centroid frame. *)
Record row : Type := {
  Curah_Hujan : float;
  Elevasi : float;
  Cluster_Label : nat
}.

Definition DataFrame : Type := list row.

(** [pd.DataFrame(centers_original, columns=['Curah_Hujan', 'Elevasi'])]
    followed by [df['Cluster_Label'] = range(len(df))]. *)
Definition centers_frame (centers_original : list features) : DataFrame :=
  map (fun ic => {| Curah_Hujan := fst (snd ic);
                    Elevasi := snd (snd ic);
                    Cluster_Label := fst ic |})
      (combine (seq 0 (List.length centers_original)) centers_original).

(** [df.take(indexer)]: the rows at the positions of [indexer], in that
    order; a position outside the frame raises. *)
Fixpoint take (df : DataFrame) (indexer : list nat) : result DataFrame :=
  match indexer with
  | [] => Ok []
  | i :: rest =>
      r <- getitem df i ;;
      rs <- take df rest ;;
      Ok (r :: rs)
  end.

(** [df.sort_values(by='Elevasi').reset_index(drop=True)].  pandas computes
    an indexer from the key column alone ([nargsort]: ascending, default
    [kind='quicksort'], [na_position='last']) and takes the rows along it;
    the fresh index makes row [i] the [i]-th row of the result. *)
Definition sort_values_Elevasi (nargsort : list float -> list nat)
    (df : DataFrame) : result DataFrame :=
  take df (nargsort (map Elevasi df)).

(** [df.loc[i, 'Cluster_Label']] on a frame with the default index. *)
Definition loc_Cluster_Label (df : DataFrame) (i : nat) : result nat :=
  match nth_error df i with
  | Some r => Ok (Cluster_Label r)
  | None => Raise (KeyError i)
  end.

(** What pandas documents for the indexer of an ascending sort: it is a
    permutation of the row positions, and the keys read along it never
    decrease, with the NaN keys last.  The default [kind] is not a stable
    algorithm, so nothing is promised about equal keys. *)
Definition indexer_of (nargsort : list float -> list nat) : Prop :=
  forall ks, Permutation (nargsort ks) (seq 0 (List.length ks)).

Definition ascending (nargsort : list float -> list nat) : Prop :=
  forall ks,
    StronglySorted
      (fun i j => na_last_leb (nth i ks NaN) (nth j ks NaN) = true)
      (nargsort ks).

(** What [kind='stable'] would add: rows with equal keys keep their order. *)
Definition stable (nargsort : list float -> list nat) : Prop :=
  forall ks,
    StronglySorted
      (fun i j => Float64.eqb (nth i ks NaN) (nth j ks NaN) = true -> i < j)
      (nargsort ks).

(** ** Section 4 of the script: interpretation of the clusters *)

Definition labels : list string :=
  ["Sangat Rawan (Bahaya)"; "Waspada (Siaga)"; "Aman"].

Definition color_codes : list string :=
  ["#FF4B4B"; "#FFA500"; "#28A745"].

(** The body of the loop of [get_cluster_info], on the pair
    [(risk_mapping, colors)]. *)
Definition assign_risk (df_sorted : DataFrame) (i : nat)
    (maps : Dict.dict * Dict.dict) : result (Dict.dict * Dict.dict) :=
  original_label <- loc_Cluster_Label df_sorted i ;;
  if (i <? List.length labels)%nat then
    label <- getitem labels i ;;
    color <- getitem color_codes i ;;
    Ok (Dict.set (fst maps) original_label label,
        Dict.set (snd maps) original_label color)
  else
    Ok (Dict.set (fst maps) original_label ("Level " ++ str i),
        Dict.set (snd maps) original_label "#808080").

Definition get_cluster_info (nargsort : list float -> list nat)
    (model : Model) (scaler : Scaler) :
    result (DataFrame * Dict.dict * Dict.dict) :=
  let centers_scaled := cluster_centers_ model in
  centers_original <- inverse_transform scaler centers_scaled ;;
  let df_centers := centers_frame centers_original in
  df_sorted <- sort_values_Elevasi nargsort df_centers ;;
  maps <- for_in (assign_risk df_sorted)
            (seq 0 (List.length df_sorted)) ([], []) ;;
  Ok (df_centers, fst maps, snd maps).

(** The category and the colour the loop gives to sorted position [i]. *)
Definition category_at (i : nat) : string :=
  if (i <? List.length labels)%nat then nth i labels "" else "Level " ++ str i.

Definition color_at (i : nat) : string :=
  if (i <? List.length labels)%nat then nth i color_codes "" else "#808080".

(** The severity rank a category name stands for (0 is the most severe):
    the position of a name of the scale, the number of a ["Level n"]. *)
Definition category_rank (name : string) : option nat :=
  if String.eqb name "Sangat Rawan (Bahaya)" then Some 0
  else if String.eqb name "Waspada (Siaga)" then Some 1
  else if String.eqb name "Aman" then Some 2
  else if String.prefix "Level " name then
    option_map Nat.of_uint
      (NilZero.uint_of_string (substring 6 (String.length name - 6) name))
  else None.

(** ** The script: module-level names and the order of its statements *)

(** The names the script binds at module level.  [g_model] and [g_scaler]
    hold Python's [None] as [None]; for the three names bound by line 118,
    [None] means that the name is not bound.  [st_errors] collects the
    messages shown with [st.error]. *)
Record globals : Type := {
  g_model : option Model;
  g_scaler : option Scaler;
  g_df_centers : option DataFrame;
  g_risk_map : option Dict.dict;
  g_color_map : option Dict.dict;
  st_errors : list string
}.

Definition fresh : globals :=
  {| g_model := None; g_scaler := None; g_df_centers := None;
     g_risk_map := None; g_color_map := None; st_errors := [] |}.

(** A statement: it reads and writes the module-level names and either
    yields a value or raises; the names survive the exception. *)
Definition script (A : Type) : Type := globals -> result A * globals.

Definition unit_ {A : Type} (a : A) : script A := fun g => (Ok a, g).

Definition then_ {A B : Type} (c : script A) (k : A -> script B) : script B :=
  fun g =>
    match c g with
    | (Ok a, g') => k a g'
    | (Raise e, g') => (Raise e, g')
    end.

Notation "x <~ c ;;; k" := (then_ c (fun x => k))
  (at level 61, c at next level, right associativity).

Definition lift {A : Type} (r : result A) : script A := fun g => (r, g).

Definition read {A : Type} (field : globals -> A) : script A :=
  fun g => (Ok (field g), g).

(** Evaluating a name that the script may not have bound. *)
Definition name {A : Type} (id : string) (field : globals -> option A) :
    script A :=
  fun g =>
    match field g with
    | Some a => (Ok a, g)
    | None => (Raise (NameError id), g)
    end.

(** What [joblib.load] yields for the two files the script opens. *)
Record files : Type := {
  kmeans_model_joblib : result Model;
  scaler_joblib : result Scaler
}.

Definition model_not_found : string :=
  "File model tidak ditemukan. Pastikan 'kmeans_model.joblib' dan 'scaler.joblib' ada di folder yang sama.".

(** [load_models]: only [FileNotFoundError] is handled. *)
Definition load_models (disk : files) :
    script (option Model * option Scaler) :=
  fun g =>
    match (model <- kmeans_model_joblib disk ;;
           scaler <- scaler_joblib disk ;;
           Ok (Some model, Some scaler)) with
    | Raise FileNotFoundError =>
        (Ok (None, None),
         {| g_model := g_model g; g_scaler := g_scaler g;
            g_df_centers := g_df_centers g; g_risk_map := g_risk_map g;
            g_color_map := g_color_map g;
            st_errors := st_errors g ++ [model_not_found] |})
    | r => (r, g)
    end.

(** Line 70: [model, scaler = load_models()]. *)
Definition bind_models (loaded : option Model * option Scaler) : script unit :=
  fun g =>
    (Ok tt,
     {| g_model := fst loaded; g_scaler := snd loaded;
        g_df_centers := g_df_centers g; g_risk_map := g_risk_map g;
        g_color_map := g_color_map g; st_errors := st_errors g |}).

(** Lines 117-118: the assignment is computed once, when a model is there. *)
Definition interpret_clusters (nargsort : list float -> list nat) :
    script unit :=
  fun g =>
    match g_model g with
    | None => (Ok tt, g)
    | Some model =>
        match g_scaler g with
        | None => (Raise (AttributeError "inverse_transform"), g)
        | Some scaler =>
            match get_cluster_info nargsort model scaler with
            | Raise e => (Raise e, g)
            | Ok (df_centers, risk_map, color_map) =>
                (Ok tt,
                 {| g_model := g_model g; g_scaler := g_scaler g;
                    g_df_centers := Some df_centers;
                    g_risk_map := Some risk_map;
                    g_color_map := Some color_map;
                    st_errors := st_errors g |})
            end
        end
    end.

(** A marker of the scatter plot of the first tab. *)
Record marker : Type := {
  marker_x : float;
  marker_y : float;
  marker_color : string;
  marker_name : string
}.

(** What the prediction block shows. *)
Record prediction_view : Type := {
  result_text : string;
  result_color : string;
  centroids : list marker
}.

(** The loop over [df_centers.iterrows()]. *)
Fixpoint centroid_markers (df_centers : DataFrame)
    (risk_map color_map : Dict.dict) : result (list marker) :=
  match df_centers with
  | [] => Ok []
  | r :: rest =>
      let cluster_id := Cluster_Label r in
      color <- Dict.getitem color_map cluster_id ;;
      risk <- Dict.getitem risk_map cluster_id ;;
      ms <- centroid_markers rest risk_map color_map ;;
      Ok ({| marker_x := Curah_Hujan r; marker_y := Elevasi r;
             marker_color := color; marker_name := "Pusat " ++ risk |} :: ms)
  end.

(** The first tab (lines 150-219). *)
Definition tab1 (val_hujan val_elevasi : float) :
    script (option prediction_view) :=
  model <~ read g_model ;;;
  match model with
  | None => unit_ None
  | Some model =>
      scaler <~ read g_scaler ;;;
      input_scaled <~
        lift (match scaler with
              | Some scaler => transform scaler (val_hujan, val_elevasi)
              | None => Raise (AttributeError "transform")
              end) ;;;
      prediction <~ lift (predict model input_scaled) ;;;
      risk_map <~ name "risk_map" g_risk_map ;;;
      result_text <~ lift (Dict.getitem risk_map prediction) ;;;
      color_map <~ name "color_map" g_color_map ;;;
      result_color <~ lift (Dict.getitem color_map prediction) ;;;
      df_centers <~ name "df_centers" g_df_centers ;;;
      markers <~ lift (centroid_markers df_centers risk_map color_map) ;;;
      unit_ (Some {| result_text := result_text;
                     result_color := result_color;
                     centroids := markers |})
  end.

(** A row of the table of the second tab.  [Series.map] with a dict leaves a
    missing value ([None]) where the key is absent. *)
Definition table_row : Type := (option string * float * float)%type.

(** The second tab (lines 221-231). *)
Definition tab2 : script (list table_row) :=
  df_centers <~ name "df_centers" g_df_centers ;;;
  risk_map <~ name "risk_map" g_risk_map ;;;
  unit_ (map (fun r => (Dict.get risk_map (Cluster_Label r),
                        Curah_Hujan r, Elevasi r)) df_centers).

(** One run of the script. *)
Definition app (nargsort : list float -> list nat) (disk : files)
    (val_hujan val_elevasi : float) :
    script (option prediction_view * list table_row) :=
  loaded <~ load_models disk ;;;
  _ <~ bind_models loaded ;;;
  _ <~ interpret_clusters nargsort ;;;
  analysis <~ tab1 val_hujan val_elevasi ;;;
  table <~ tab2 ;;;
  unit_ (analysis, table).


(** ** Concrete collaborators, to run the script on *)

(** Insertion of a row position into a sorted indexer. *)
Fixpoint insert_index (before : nat -> nat -> bool) (i : nat)
    (sorted : list nat) : list nat :=
  match sorted with
  | [] => [i]
  | j :: rest =>
      if before i j then i :: j :: rest
      else j :: insert_index before i rest
  end.

Definition insertion_nargsort (before : float -> float -> bool)
    (ks : list float) : list nat :=
  fold_right
    (insert_index (fun i j => before (nth i ks NaN) (nth j ks NaN)))
    [] (seq 0 (List.length ks)).

(** An indexer that keeps rows with equal keys in their order, as
    [kind='stable'] does. *)
Definition stable_nargsort : list float -> list nat :=
  insertion_nargsort na_last_leb.

(** An indexer that is ascending as well but leaves rows with equal keys in
    the opposite order, which an algorithm that is not stable may do. *)
Definition reversing_nargsort : list float -> list nat :=
  insertion_nargsort (fun a b => negb (na_last_leb b a)).

(** A scaler with zero mean and unit scale. *)
Definition unit_scaler : Scaler :=
  {| transform := fun x => Ok x; inverse_transform := fun xs => Ok xs |}.

(** Squared Euclidean distance between finite vectors, in units of
    [2^-2148]. *)
Definition distance2 (x c : features) : option Z :=
  match x, c with
  | (Fin a, Fin b), (Fin a', Fin b') =>
      Some ((a - a') * (a - a') + (b - b') * (b - b'))%Z
  | _, _ => None
  end.

(** The position of the first nearest centre, scanning from [i]. *)
Fixpoint nearest (x : features) (centers : list features) (i : nat)
    (best : option (nat * Z)) : option nat :=
  match centers with
  | [] => option_map fst best
  | c :: rest =>
      match distance2 x c with
      | None => None
      | Some d =>
          match best with
          | Some (j, dj) =>
              nearest x rest (S i) (if (d <? dj)%Z then Some (i, d) else best)
          | None => nearest x rest (S i) (Some (i, d))
          end
      end
  end.

(** A K-Means model with the given centres: [predict] validates its input,
    as scikit-learn does, and returns the nearest centre. *)
Definition kmeans (centers : list features) : Model :=
  {| cluster_centers_ := centers;
     predict := fun x =>
       match nearest x centers 0 None with
       | Some k => Ok k
       | None => Raise (ValueError "Input X contains NaN or infinity.")
       end |}.

(** Three centres at 2, 5 and 40 mdpl, the lowest one carrying cluster id 1. *)
Definition lhokseumawe : list features :=
  [(of_Z 210, of_Z 5); (of_Z 320, of_Z 2); (of_Z 150, of_Z 40)].

(** The same elevations with other rainfall values. *)
Definition dry_season : list features :=
  [(of_Z 20, of_Z 5); (of_Z 35, of_Z 2); (of_Z 0, of_Z 40)].

(** Five centres, to reach the categories beyond the scale. *)
Definition five_centers : list features :=
  [(of_Z 210, of_Z 5); (of_Z 320, of_Z 2); (of_Z 150, of_Z 40);
   (of_Z 100, of_Z 60); (of_Z 180, of_Z 12)].

(** Two centres at the same elevation. *)
Definition level_ground : list features :=
  [(of_Z 300, of_Z 5); (of_Z 100, of_Z 5)].

(** Four centres, the first two at the same elevation. *)
Definition shared_ridge : list features :=
  [(of_Z 300, of_Z 5); (of_Z 100, of_Z 5); (of_Z 250, of_Z 3);
   (of_Z 400, of_Z 1)].


Definition missing_files : files :=
  {| kmeans_model_joblib := Raise FileNotFoundError;
     scaler_joblib := Raise FileNotFoundError |}.

(** ** Vocabulary of the statements *)

(** The elevation of the centre with the given cluster id, in raw units. *)
Definition elevation (cs : list features) (cluster_id : nat) : float :=
  nth cluster_id (map snd cs) NaN.


(** The module-level names once line 70 has bound a model and a scaler. *)
Definition loaded (model : Model) (scaler : Scaler) : globals :=
  {| g_model := Some model; g_scaler := Some scaler; g_df_centers := None;
     g_risk_map := None; g_color_map := None; st_errors := [] |}.

(** The names once lines 117-118 have bound the assignment as well. *)
Definition interpreted (model : Model) (scaler : Scaler)
    (info : DataFrame * Dict.dict * Dict.dict) : globals :=
  {| g_model := Some model; g_scaler := Some scaler;
     g_df_centers := Some (fst (fst info));
     g_risk_map := Some (snd (fst info));
     g_color_map := Some (snd info); st_errors := [] |}.

(** The severity rank of a cluster under a risk mapping. *)
Definition rank_of (risk_mapping : Dict.dict) (cluster_id : nat) : option nat :=
  match Dict.get risk_mapping cluster_id with
  | Some category => category_rank category
  | None => None
  end.

(** The marker the loop of the first tab draws for a row of the frame. *)
Definition marks (risk_map color_map : Dict.dict) (r : row) (m : marker) :
    Prop :=
  marker_x m = Curah_Hujan r /\
  marker_y m = Elevasi r /\
  Dict.get color_map (Cluster_Label r) = Some (marker_color m) /\
  exists risk,
    Dict.get risk_map (Cluster_Label r) = Some risk /\
    marker_name m = ("Pusat " ++ risk)%string.

(** Both files there. *)
Definition unpickled (model : Model) (scaler : Scaler) : files :=
  {| kmeans_model_joblib := Ok model; scaler_joblib := Ok scaler |}.

(** The model file there, the scaler file missing. *)
Definition scaler_missing (model : Model) : files :=
  {| kmeans_model_joblib := Ok model;
     scaler_joblib := Raise FileNotFoundError |}.

(** A model file that [joblib.load] cannot read. *)
Definition truncated_pickle : files :=
  {| kmeans_model_joblib := Raise (ValueError "EOF: reading array data");
     scaler_joblib := Ok unit_scaler |}.

(** A scaler that rejects what it is asked to map back. *)
Definition unfitted_scaler : Scaler :=
  {| transform := fun _ => Raise (ValueError "not fitted");
     inverse_transform := fun _ => Raise (ValueError "not fitted") |}.

(** Three centres, the first one without a usable elevation. *)
Definition dead_sensor : list features :=
  [(of_Z 210, NaN); (of_Z 320, of_Z 2); (of_Z 150, of_Z 40)].

(** The sort leaves the rows with equal keys of this one key column in
    their original order. *)
Definition keeps_ties_in_order (nargsort : list float -> list nat)
    (ks : list float) : Prop :=
  StronglySorted
    (fun i j => Float64.eqb (nth i ks NaN) (nth j ks NaN) = true -> i < j)
    (nargsort ks).

(** Three centres at one elevation. *)
Definition plateau : list features :=
  [(of_Z 300, of_Z 5); (of_Z 100, of_Z 5); (of_Z 200, of_Z 5)].

(** * Properties *)

Local Open Scope list_scope.
Local Open Scope nat_scope.

(** ** The order on doubles *)

Lemma ltb_irrefl (x : float) : Float64.ltb x x = false.
Proof. destruct x; simpl; auto using Z.ltb_irrefl. Qed.

Lemma na_last_leb_total (x y : float) :
  na_last_leb x y = false -> na_last_leb y x = true.
Proof.
  unfold na_last_leb, Float64.leb.
  destruct x, y; simpl; try reflexivity; try discriminate.
  rewrite !orb_false_iff, Z.ltb_ge, Z.eqb_neq, orb_true_iff, Z.ltb_lt.
  lia.
Qed.

Lemma na_last_leb_trans (x y z : float) :
  na_last_leb x y = true -> na_last_leb y z = true -> na_last_leb x z = true.
Proof.
  unfold na_last_leb, Float64.leb.
  destruct x, y, z; simpl; try reflexivity; try discriminate.
  rewrite !orb_true_iff, !Z.ltb_lt, !Z.eqb_eq. lia.
Qed.

Lemma ltb_na_last_leb (x y : float) :
  Float64.ltb x y = true -> na_last_leb y x = false.
Proof.
  unfold na_last_leb, Float64.leb.
  destruct x, y; simpl; try reflexivity; try discriminate.
  rewrite Z.ltb_lt, orb_false_iff, Z.ltb_ge, Z.eqb_neq. lia.
Qed.

Lemma eqb_na_last_leb (x y : float) :
  Float64.eqb x y = true -> na_last_leb y x = true.
Proof.
  unfold na_last_leb, Float64.leb.
  destruct x, y; simpl; try reflexivity; try discriminate.
  rewrite !Z.eqb_eq. intros ->. now rewrite Z.eqb_refl, orb_true_r.
Qed.

Lemma eqb_ltb (x y : float) :
  Float64.eqb x y = true -> Float64.ltb x y = false.
Proof.
  destruct x, y; simpl; try reflexivity; try discriminate.
  rewrite Z.eqb_eq, Z.ltb_ge. lia.
Qed.

(** ** Lists read by position *)

Section Positions.

Context {A : Type}.
Variable R : A -> A -> Prop.

Lemma StronglySorted_nth (l : list A) (d : A) :
  StronglySorted R l ->
  forall i j, i < j -> j < List.length l -> R (nth i l d) (nth j l d).
Proof.
  induction 1 as [|a l Hl IH Ha]; intros i j Hij Hj; simpl in Hj.
  - lia.
  - destruct j as [|j]; [lia|].
    destruct i as [|i]; simpl.
    + rewrite Forall_forall in Ha. apply Ha, nth_In. lia.
    + apply IH; lia.
Qed.

Lemma firstn_snoc (l : list A) (d : A) (k : nat) :
  k < List.length l -> firstn (S k) l = firstn k l ++ [nth k l d].
Proof.
  revert k. induction l as [|a l IH]; intros k Hk; simpl in Hk.
  - lia.
  - destruct k as [|k]; [reflexivity|].
    cbn [firstn nth app]. rewrite <- app_comm_cons. f_equal. apply IH. lia.
Qed.

End Positions.

Lemma NoDup_nth_firstn {A : Type} (l : list A) (d : A) (k : nat) :
  NoDup l -> k < List.length l -> ~ In (nth k l d) (firstn k l).
Proof.
  intros Hnd Hk Hin.
  apply (In_nth _ _ d) in Hin as (j & Hj & Heq).
  rewrite length_firstn in Hj.
  rewrite nth_firstn in Heq.
  destruct (Nat.ltb_spec j k); [|lia].
  apply (proj1 (NoDup_nth l d) Hnd) in Heq; lia.
Qed.

Lemma combine_snoc {A B : Type} (l : list A) (l' : list B) (a : A) (b : B) :
  List.length l = List.length l' ->
  combine (l ++ [a]) (l' ++ [b]) = combine l l' ++ [(a, b)].
Proof.
  revert l'. induction l as [|x l IH]; intros [|y l'] Hlen;
    simpl in *; try discriminate; [reflexivity|].
  f_equal. apply IH. lia.
Qed.

(** Two strictly increasing lists with the same elements are equal. *)
Lemma increasing_unique (l l' : list nat) :
  StronglySorted lt l -> StronglySorted lt l' -> Permutation l l' -> l = l'.
Proof.
  revert l'. induction l as [|a l IH]; intros l' Hl Hl' HP.
  - now apply Permutation_nil in HP.
  - destruct l' as [|b l'].
    + symmetry in HP. now apply Permutation_nil in HP.
    + apply StronglySorted_inv in Hl as [Hl Ha].
      apply StronglySorted_inv in Hl' as [Hl' Hb].
      rewrite Forall_forall in Ha, Hb.
      assert (a = b) as ->.
      { assert (In a (b :: l')) as [?|Ia]
          by (eapply Permutation_in; [exact HP | now left]); [congruence|].
        assert (In b (a :: l)) as [?|Ib]
          by (eapply Permutation_in; [symmetry; exact HP | now left]);
          [congruence|].
        specialize (Ha _ Ib). specialize (Hb _ Ia). lia. }
      f_equal. apply IH; auto. eapply Permutation_cons_inv, HP.
Qed.

Lemma seq_increasing (s n : nat) : StronglySorted lt (seq s n).
Proof.
  revert s. induction n as [|n IH]; intro s; simpl; constructor.
  - apply IH.
  - apply Forall_forall. intros x Hx. apply in_seq in Hx. lia.
Qed.

(** ** The insertion indexers meet the contract of the sort *)

Lemma insert_index_perm (before : nat -> nat -> bool) (i : nat) (l : list nat) :
  Permutation (insert_index before i l) (i :: l).
Proof.
  induction l as [|j l IH]; simpl; [reflexivity|].
  destruct (before i j); [reflexivity|].
  rewrite IH. apply perm_swap.
Qed.

Lemma insert_index_sorted (R : nat -> nat -> Prop)
    (before : nat -> nat -> bool) (i : nat) (l : list nat) :
  StronglySorted R l ->
  (forall j, In j l -> before i j = false -> R j i) ->
  (forall j x, In j l -> In x l -> before i j = true ->
               x = j \/ R j x -> R i x) ->
  StronglySorted R (insert_index before i l).
Proof.
  induction 1 as [|j l Hl IH Hj]; intros Hafter Hbefore; simpl.
  - repeat constructor.
  - rewrite Forall_forall in Hj.
    destruct (before i j) eqn:Hb.
    + constructor; [now constructor; [|apply Forall_forall]|].
      apply Forall_forall. intros x [<-|Hx].
      * apply (Hbefore j j); simpl; auto.
      * apply (Hbefore j x); simpl; auto.
    + constructor.
      * apply IH.
        -- intros k Hk. apply Hafter. now right.
        -- intros k x Hk Hx. apply Hbefore; now right.
      * apply Forall_forall. intros x Hx.
        apply (Permutation_in _ (insert_index_perm before i l)) in Hx.
        destruct Hx as [<-|Hx]; [apply Hafter; simpl; auto | auto].
Qed.

Lemma insertion_nargsort_indexer (before : float -> float -> bool) :
  indexer_of (insertion_nargsort before).
Proof.
  intro ks. unfold insertion_nargsort.
  induction (seq 0 (List.length ks)) as [|i l IH]; simpl; [reflexivity|].
  rewrite insert_index_perm. now constructor.
Qed.

Lemma insertion_nargsort_ascending (before : float -> float -> bool) :
  (forall x y, before x y = true -> na_last_leb x y = true) ->
  (forall x y, before x y = false -> na_last_leb y x = true) ->
  ascending (insertion_nargsort before).
Proof.
  intros Ht Hf ks. unfold insertion_nargsort.
  induction (seq 0 (List.length ks)) as [|i l IH]; simpl; [constructor|].
  apply insert_index_sorted; [exact IH | intros; now apply Hf |].
  intros j x _ _ Hb [->|Hjx]; [now apply Ht|].
  eapply na_last_leb_trans; [apply Ht, Hb | exact Hjx].
Qed.

Lemma stable_nargsort_indexer : indexer_of stable_nargsort.
Proof. apply insertion_nargsort_indexer. Qed.

Lemma stable_nargsort_ascending : ascending stable_nargsort.
Proof.
  apply insertion_nargsort_ascending; [auto | apply na_last_leb_total].
Qed.

Lemma stable_nargsort_stable : stable stable_nargsort.
Proof.
  intro ks. unfold stable_nargsort, insertion_nargsort.
  generalize 0 as s.
  induction (List.length ks) as [|n IH]; intro s; simpl; [constructor|].
  assert (Hgt : forall x,
    In x (fold_right
            (insert_index
               (fun i j => na_last_leb (nth i ks NaN) (nth j ks NaN)))
            [] (seq (S s) n)) -> s < x).
  { intros x Hx.
    assert (HP : forall l, Permutation
      (fold_right
         (insert_index (fun i j => na_last_leb (nth i ks NaN) (nth j ks NaN)))
         [] l) l).
    { induction l as [|i l IHl]; simpl; [reflexivity|].
      rewrite insert_index_perm. now constructor. }
    apply (Permutation_in _ (HP _)), in_seq in Hx. lia. }
  apply insert_index_sorted; [apply IH | |].
  - intros j _ Hb He. apply eqb_na_last_leb in He. congruence.
  - intros j x _ Hx _ _ _. now apply Hgt.
Qed.

Lemma reversing_nargsort_indexer : indexer_of reversing_nargsort.
Proof. apply insertion_nargsort_indexer. Qed.

Lemma reversing_nargsort_ascending : ascending reversing_nargsort.
Proof.
  apply insertion_nargsort_ascending; intros x y H.
  - apply negb_true_iff in H. now apply na_last_leb_total.
  - now apply negb_false_iff in H.
Qed.

(** ** Dictionaries *)

Lemma set_fresh (d : Dict.dict) (k : nat) (v : string) :
  ~ In k (Dict.keys d) -> Dict.set d k v = d ++ [(k, v)].
Proof.
  induction d as [|[k' v'] d IH]; simpl; intro Hk; [reflexivity|].
  destruct (Nat.eqb_spec k k') as [->|_]; [tauto|].
  f_equal. apply IH. tauto.
Qed.

Lemma keys_combine (ks : list nat) (vs : list string) :
  List.length ks = List.length vs -> Dict.keys (combine ks vs) = ks.
Proof.
  revert vs. induction ks as [|k ks IH]; intros [|v vs] Hlen;
    simpl in *; try discriminate; [reflexivity|].
  f_equal. apply IH. lia.
Qed.

(** In a dictionary written once per key, the key at position [p] holds
    the value at position [p]. *)
Lemma get_combine (ks : list nat) (vs : list string) (p : nat) :
  NoDup ks -> List.length ks = List.length vs -> p < List.length ks ->
  Dict.get (combine ks vs) (nth p ks 0) = Some (nth p vs ""%string).
Proof.
  revert vs p. induction ks as [|k ks IH]; intros [|v vs] p Hnd Hlen Hp;
    simpl in *; try discriminate; try lia.
  apply NoDup_cons_iff in Hnd as [Hk Hnd].
  destruct p as [|p].
  - now rewrite Nat.eqb_refl.
  - destruct (Nat.eqb_spec (nth p ks 0) k) as [<-|_].
    + exfalso. apply Hk, nth_In. lia.
    + apply IH; auto; lia.
Qed.

Lemma get_keys (d : Dict.dict) (k : nat) :
  In k (Dict.keys d) -> exists v, Dict.get d k = Some v.
Proof.
  induction d as [|[k' v'] d IH]; simpl; [tauto|].
  intros [->|Hk]; [rewrite Nat.eqb_refl; eauto|].
  destruct (Nat.eqb k k'); eauto.
Qed.

(** ** The loop of [get_cluster_info] *)

Lemma for_in_app {A : Type} (body : nat -> A -> result A)
    (l l' : list nat) (acc : A) :
  for_in body (l ++ l') acc =
  (acc' <- for_in body l acc ;; for_in body l' acc').
Proof.
  revert acc. induction l as [|i l IH]; intro acc; simpl; [reflexivity|].
  destruct (body i acc); simpl; [apply IH | reflexivity].
Qed.

Lemma category_at_length (n : nat) :
  List.length (map category_at (seq 0 n)) = n.
Proof. now rewrite length_map, length_seq. Qed.

Lemma color_at_length (n : nat) :
  List.length (map color_at (seq 0 n)) = n.
Proof. now rewrite length_map, length_seq. Qed.

(** One pass of the body at position [i] writes [category_at i] and
    [color_at i] under the label of the [i]-th sorted row. *)
Lemma assign_risk_step (df_sorted : DataFrame) (i : nat)
    (maps : Dict.dict * Dict.dict) :
  i < List.length df_sorted ->
  assign_risk df_sorted i maps =
  Ok (Dict.set (fst maps) (nth i (map Cluster_Label df_sorted) 0)
        (category_at i),
      Dict.set (snd maps) (nth i (map Cluster_Label df_sorted) 0)
        (color_at i)).
Proof.
  intro Hi. unfold assign_risk, loc_Cluster_Label, category_at, color_at.
  destruct (nth_error df_sorted i) as [r|] eqn:Hr.
  2:{ apply nth_error_None in Hr. lia. }
  assert (Hl : nth i (map Cluster_Label df_sorted) 0 = Cluster_Label r).
  { apply nth_error_nth. now rewrite nth_error_map, Hr. }
  rewrite Hl. cbn [bind]. change (List.length labels) with 3.
  destruct (Nat.ltb_spec i 3) as [Hlt|_]; [|reflexivity].
  destruct i as [|[|[|i]]]; [reflexivity | reflexivity | reflexivity | lia].
Qed.

Lemma loop_prefix (df_sorted : DataFrame) (k : nat) :
  NoDup (map Cluster_Label df_sorted) ->
  k <= List.length df_sorted ->
  for_in (assign_risk df_sorted) (seq 0 k) ([], []) =
  Ok (combine (firstn k (map Cluster_Label df_sorted))
        (map category_at (seq 0 k)),
      combine (firstn k (map Cluster_Label df_sorted))
        (map color_at (seq 0 k))).
Proof.
  intros Hnd. induction k as [|k IH]; intro Hk; [reflexivity|].
  rewrite seq_S, for_in_app, IH by lia. cbn [bind for_in Nat.add].
  rewrite assign_risk_step by lia. cbn [bind fst snd].
  set (ls := map Cluster_Label df_sorted) in *.
  assert (Hlen : k < List.length ls) by (unfold ls; rewrite length_map; lia).
  assert (Hfresh : ~ In (nth k ls 0) (firstn k ls))
    by now apply NoDup_nth_firstn.
  assert (Hf1 : List.length (firstn k ls) = k)
    by (rewrite length_firstn; lia).
  rewrite !set_fresh
    by (rewrite keys_combine;
        [exact Hfresh
        | now rewrite Hf1, ?category_at_length, ?color_at_length]).
  rewrite (firstn_snoc ls 0 k Hlen), !map_app. cbn [map].
  rewrite !combine_snoc
    by now rewrite Hf1, ?category_at_length, ?color_at_length.
  reflexivity.
Qed.

(** ** The centroid frame and its sorted copy *)

Lemma centers_frame_shape (s : nat) (cs : list features) :
  let df := map (fun ic => {| Curah_Hujan := fst (snd ic);
                              Elevasi := snd (snd ic);
                              Cluster_Label := fst ic |})
                (combine (seq s (List.length cs)) cs) in
  map Cluster_Label df = seq s (List.length cs) /\
  map Elevasi df = map snd cs /\
  map (fun r => (Curah_Hujan r, Elevasi r)) df = cs.
Proof.
  revert s. induction cs as [|[r e] cs IH]; intro s; simpl;
    [repeat split|].
  destruct (IH (S s)) as (H1 & H2 & H3).
  simpl in H1, H2, H3. now rewrite H1, H2, H3.
Qed.

Lemma centers_frame_labels (cs : list features) :
  map Cluster_Label (centers_frame cs) = seq 0 (List.length cs).
Proof. apply (centers_frame_shape 0 cs). Qed.

Lemma centers_frame_Elevasi (cs : list features) :
  map Elevasi (centers_frame cs) = map snd cs.
Proof. apply (centers_frame_shape 0 cs). Qed.

Lemma centers_frame_features (cs : list features) :
  map (fun r => (Curah_Hujan r, Elevasi r)) (centers_frame cs) = cs.
Proof. apply (centers_frame_shape 0 cs). Qed.

Lemma centers_frame_length (cs : list features) :
  List.length (centers_frame cs) = List.length cs.
Proof.
  rewrite <- (length_map Cluster_Label), centers_frame_labels.
  apply length_seq.
Qed.

(** Taking rows along valid positions succeeds, and row [i] of the
    centroid frame carries label [i]. *)
Lemma take_labels (cs : list features) (indexer : list nat) :
  Forall (fun i => i < List.length cs) indexer ->
  exists rows,
    take (centers_frame cs) indexer = Ok rows /\
    map Cluster_Label rows = indexer /\
    map Elevasi rows = map (fun i => nth i (map snd cs) NaN) indexer.
Proof.
  induction 1 as [|i indexer Hi _ (rows & Ht & Hl & He)]; simpl.
  - exists []. repeat split.
  - unfold getitem.
    destruct (nth_error (centers_frame cs) i) as [r|] eqn:Hr.
    2:{ apply nth_error_None in Hr. rewrite centers_frame_length in Hr. lia. }
    rewrite Ht. exists (r :: rows). simpl. rewrite Hl, He.
    repeat split; f_equal.
    + pose proof (centers_frame_labels cs) as H.
      apply (f_equal (fun l => nth_error l i)) in H.
      rewrite nth_error_map, Hr in H. simpl in H.
      rewrite nth_error_nth' with (d := 0) in H by (rewrite length_seq; lia).
      rewrite seq_nth in H by lia. now injection H.
    + pose proof (centers_frame_Elevasi cs) as H.
      apply (f_equal (fun l => nth_error l i)) in H.
      rewrite nth_error_map, Hr in H. simpl in H.
      symmetry in H. symmetry. now apply nth_error_nth.
Qed.

Lemma indexer_in_range (nargsort : list float -> list nat) (ks : list float) :
  indexer_of nargsort ->
  Forall (fun i => i < List.length ks) (nargsort ks).
Proof.
  intro HP. apply Forall_forall. intros i Hi.
  apply (Permutation_in _ (HP ks)), in_seq in Hi. lia.
Qed.

Lemma indexer_NoDup (nargsort : list float -> list nat) (ks : list float) :
  indexer_of nargsort -> NoDup (nargsort ks).
Proof.
  intro HP. eapply Permutation_NoDup; [symmetry; apply HP | apply seq_NoDup].
Qed.

Lemma indexer_length (nargsort : list float -> list nat) (ks : list float) :
  indexer_of nargsort -> List.length (nargsort ks) = List.length ks.
Proof.
  intro HP. rewrite (Permutation_length (HP ks)). apply length_seq.
Qed.

(** Every row position occurs at some place of the indexer. *)
Lemma indexer_position (nargsort : list float -> list nat) (ks : list float)
    (a : nat) :
  indexer_of nargsort -> a < List.length ks ->
  exists p, p < List.length ks /\ nth p (nargsort ks) 0 = a.
Proof.
  intros HP Ha.
  assert (Hin : In a (nargsort ks)).
  { eapply Permutation_in; [symmetry; apply HP | apply in_seq; lia]. }
  apply (In_nth _ _ 0) in Hin as (p & Hp & Hnth).
  rewrite indexer_length in Hp by assumption. eauto.
Qed.

(** The sorted frame, and what [get_cluster_info] returns, in closed form:
    the dictionaries hold, in the order of the indexer, the categories and
    the colours of positions [0], [1], ... *)
Lemma sorted_frame (nargsort : list float -> list nat) (cs : list features) :
  indexer_of nargsort ->
  exists df_sorted,
    sort_values_Elevasi nargsort (centers_frame cs) = Ok df_sorted /\
    map Cluster_Label df_sorted = nargsort (map snd cs) /\
    map Elevasi df_sorted =
      map (fun i => nth i (map snd cs) NaN) (nargsort (map snd cs)) /\
    List.length df_sorted = List.length cs.
Proof.
  intro HP. unfold sort_values_Elevasi. rewrite centers_frame_Elevasi.
  destruct (take_labels cs (nargsort (map snd cs))) as (rows & Ht & Hl & He).
  { pose proof (indexer_in_range nargsort (map snd cs) HP) as H.
    now rewrite length_map in H. }
  exists rows. repeat split; auto.
  rewrite <- (length_map Cluster_Label), Hl, indexer_length by assumption.
  apply length_map.
Qed.

Lemma get_cluster_info_closed (nargsort : list float -> list nat)
    (model : Model) (scaler : Scaler) (cs : list features) :
  indexer_of nargsort ->
  inverse_transform scaler (cluster_centers_ model) = Ok cs ->
  get_cluster_info nargsort model scaler =
  Ok (centers_frame cs,
      combine (nargsort (map snd cs))
        (map category_at (seq 0 (List.length cs))),
      combine (nargsort (map snd cs))
        (map color_at (seq 0 (List.length cs)))).
Proof.
  intros HP Hcs. unfold get_cluster_info. rewrite Hcs. cbn [bind].
  destruct (sorted_frame nargsort cs HP) as (df & Hs & Hl & _ & Hn).
  rewrite Hs. cbn [bind].
  rewrite loop_prefix by (rewrite ?Hl; auto using indexer_NoDup).
  cbn [bind fst snd]. rewrite Hl, Hn.
  rewrite firstn_all2; [reflexivity|].
  rewrite indexer_length, length_map by assumption. lia.
Qed.

(** ** Category names and their ranks *)

Lemma substring_all (s : string) : substring 0 (String.length s) s = s.
Proof. induction s as [|c s IH]; simpl; [reflexivity | now rewrite IH]. Qed.

Lemma str_parse (i : nat) :
  option_map Nat.of_uint (NilZero.uint_of_string (str i)) = Some i.
Proof.
  unfold str.
  pose proof (DecimalNat.Unsigned.of_to i) as Hi.
  destruct (Nat.to_uint i) eqn:E;
    try (rewrite NilZero.usu by discriminate; simpl; now rewrite Hi).
  simpl in *. now rewrite <- Hi.
Qed.

(** The rank of the category written at sorted position [i] is [i]. *)
Lemma category_rank_at (i : nat) : category_rank (category_at i) = Some i.
Proof.
  unfold category_at. change (List.length labels) with 3.
  destruct (Nat.ltb_spec i 3) as [Hlt|Hge].
  - destruct i as [|[|[|i]]]; [reflexivity | reflexivity | reflexivity | lia].
  - unfold category_rank. cbn [String.eqb Ascii.eqb Bool.eqb append].
    generalize (str_parse i). generalize (str i). intros s Hs.
    assert (Hp : prefix "Level " ("Level " ++ s) = true)
      by (simpl; now destruct s).
    simpl append in Hp. rewrite Hp.
    cbn [String.length Nat.sub substring].
    now rewrite Nat.sub_0_r, substring_all.
Qed.

Lemma category_at_inj (i j : nat) : category_at i = category_at j -> i = j.
Proof.
  intro H. apply (f_equal category_rank) in H.
  rewrite !category_rank_at in H. now injection H.
Qed.

(** ** The assignment of categories to clusters *)

Lemma StronglySorted_map {A B : Type} (f : A -> B) (R : B -> B -> Prop)
    (l : list A) :
  StronglySorted (fun x y => R (f x) (f y)) l -> StronglySorted R (map f l).
Proof.
  induction 1 as [|a l Hl IH Ha]; simpl; constructor; [exact IH|].
  rewrite Forall_forall in *. intros y Hy.
  apply in_map_iff in Hy as (x & <- & Hx). auto.
Qed.

Lemma nth_map_seq {A : Type} (f : nat -> A) (n p : nat) (d : A) :
  p < n -> nth p (map f (seq 0 n)) d = f p.
Proof.
  intro Hp. rewrite (nth_indep _ d (f 0)) by now rewrite length_map, length_seq.
  now rewrite map_nth, seq_nth.
Qed.

Lemma elevation_in_range (cs : list features) (a : nat) :
  isnan (elevation cs a) = false -> a < List.length cs.
Proof.
  unfold elevation. intro H.
  destruct (Nat.lt_ge_cases a (List.length cs)) as [|Hge]; [assumption|].
  rewrite nth_overflow in H by now rewrite length_map. discriminate.
Qed.

Lemma ltb_not_nan (x y : float) :
  Float64.ltb x y = true -> isnan x = false /\ isnan y = false.
Proof. now destruct x, y. Qed.

Section Labeler.

Variable nargsort : list float -> list nat.
Hypothesis nargsort_indexer : indexer_of nargsort.

(** Where the loop finds a cluster, there it writes: the cluster at sorted
    position [p] gets the category and the colour of position [p]. *)
Lemma assignment_at (cs : list features) (p : nat) :
  p < List.length cs ->
  let cluster_id := nth p (nargsort (map snd cs)) 0 in
  Dict.get (combine (nargsort (map snd cs))
              (map category_at (seq 0 (List.length cs)))) cluster_id =
    Some (category_at p) /\
  Dict.get (combine (nargsort (map snd cs))
              (map color_at (seq 0 (List.length cs)))) cluster_id =
    Some (color_at p).
Proof.
  intros Hp cluster_id. unfold cluster_id.
  pose proof (indexer_length nargsort (map snd cs) nargsort_indexer) as Hlen.
  rewrite length_map in Hlen.
  rewrite !get_combine;
    rewrite ?category_at_length, ?color_at_length, ?Hlen;
    auto using indexer_NoDup.
  now rewrite !nth_map_seq.
Qed.

(** Every cluster id sits at some sorted position. *)
Lemma sorted_position (cs : list features) (a : nat) :
  a < List.length cs ->
  exists p, p < List.length cs /\ nth p (nargsort (map snd cs)) 0 = a.
Proof.
  intro Ha.
  destruct (indexer_position nargsort (map snd cs) a nargsort_indexer)
    as (p & Hp & Hnth); rewrite ?length_map in *; eauto.
Qed.

Hypothesis nargsort_ascending : ascending nargsort.

(** A centre strictly lower than another one comes strictly earlier. *)
Lemma lower_comes_first (cs : list features) (p q : nat) :
  p < List.length cs -> q < List.length cs ->
  Float64.ltb (elevation cs (nth p (nargsort (map snd cs)) 0))
              (elevation cs (nth q (nargsort (map snd cs)) 0)) = true ->
  p < q.
Proof.
  intros Hp Hq Hlt.
  pose proof (indexer_length nargsort (map snd cs) nargsort_indexer) as Hlen.
  rewrite length_map in Hlen.
  destruct (Nat.lt_total p q) as [|[->|Hqp]]; [assumption | |].
  - now rewrite ltb_irrefl in Hlt.
  - apply ltb_na_last_leb in Hlt.
    pose proof (StronglySorted_nth _ _ 0 (nargsort_ascending (map snd cs))
                  q p Hqp) as Hs.
    unfold elevation in Hlt. rewrite Hs in Hlt; [discriminate | lia].
Qed.

End Labeler.

(** ** What the specification claims about the labelling *)

Section Claims.

Variable nargsort : list float -> list nat.
Hypothesis nargsort_indexer : indexer_of nargsort.
Hypothesis nargsort_ascending : ascending nargsort.

(** C1.  Whatever the number of centres, [get_cluster_info] returns, and
    the keys of the risk mapping are the cluster ids [0 .. N-1], each
    written once and each holding a category. *)
Theorem risk_mapping_total (model : Model) (scaler : Scaler)
    (cs : list features) :
  inverse_transform scaler (cluster_centers_ model) = Ok cs ->
  exists df_centers risk_mapping colors,
    get_cluster_info nargsort model scaler =
      Ok (df_centers, risk_mapping, colors) /\
    Permutation (Dict.keys risk_mapping) (seq 0 (List.length cs)) /\
    (forall k, k < List.length cs ->
       count_occ Nat.eq_dec (Dict.keys risk_mapping) k = 1) /\
    (forall k, k < List.length cs ->
       exists category, Dict.get risk_mapping k = Some category).
Proof.
  intro Hcs. do 3 eexists.
  split; [exact (get_cluster_info_closed _ _ _ _ nargsort_indexer Hcs)|].
  pose proof (indexer_length nargsort (map snd cs) nargsort_indexer) as Hlen.
  rewrite length_map in Hlen.
  rewrite keys_combine by now rewrite category_at_length.
  assert (HP : Permutation (nargsort (map snd cs)) (seq 0 (List.length cs))).
  { rewrite <- (length_map snd cs). apply nargsort_indexer. }
  split; [exact HP | split].
  - intros k Hk.
    apply (proj1 (NoDup_count_occ' Nat.eq_dec _)).
    + now apply indexer_NoDup.
    + eapply Permutation_in; [symmetry; exact HP | apply in_seq; lia].
  - intros k Hk.
    destruct (sorted_position nargsort nargsort_indexer cs k Hk)
      as (p & Hp & <-).
    eexists. now apply assignment_at.
Qed.

(** C4.  If centre [a] lies strictly lower than centre [b], the category of
    [a] has a strictly lower rank than the category of [b]. *)
Theorem rank_increases_with_elevation (model : Model) (scaler : Scaler)
    (cs : list features) (a b : nat) :
  inverse_transform scaler (cluster_centers_ model) = Ok cs ->
  Float64.ltb (elevation cs a) (elevation cs b) = true ->
  exists df_centers risk_mapping colors category_a category_b rank_a rank_b,
    get_cluster_info nargsort model scaler =
      Ok (df_centers, risk_mapping, colors) /\
    Dict.get risk_mapping a = Some category_a /\
    Dict.get risk_mapping b = Some category_b /\
    category_rank category_a = Some rank_a /\
    category_rank category_b = Some rank_b /\
    rank_a < rank_b.
Proof.
  intros Hcs Hlt.
  destruct (ltb_not_nan _ _ Hlt) as [Ha Hb].
  apply elevation_in_range in Ha, Hb.
  destruct (sorted_position nargsort nargsort_indexer cs a Ha)
    as (p & Hp & Hpa).
  destruct (sorted_position nargsort nargsort_indexer cs b Hb)
    as (q & Hq & Hqb).
  exists (centers_frame cs). do 2 eexists.
  exists (category_at p), (category_at q), p, q.
  split; [exact (get_cluster_info_closed _ _ _ _ nargsort_indexer Hcs)|].
  rewrite <- Hpa at 1. rewrite <- Hqb at 1.
  repeat split;
    try (now apply assignment_at); try apply category_rank_at.
  apply (lower_comes_first nargsort nargsort_indexer nargsort_ascending cs);
    auto.
  now rewrite Hpa, Hqb.
Qed.

(** C7.  With exactly three centres at distinct elevations, the lowest one
    is "Sangat Rawan (Bahaya)", the middle one "Waspada (Siaga)" and the
    highest one "Aman", each with its colour, whatever ids they carry. *)
Theorem three_clusters_by_elevation (model : Model) (scaler : Scaler)
    (cs : list features) (lowest middle highest : nat) :
  inverse_transform scaler (cluster_centers_ model) = Ok cs ->
  List.length cs = 3 ->
  Float64.ltb (elevation cs lowest) (elevation cs middle) = true ->
  Float64.ltb (elevation cs middle) (elevation cs highest) = true ->
  exists df_centers risk_mapping colors,
    get_cluster_info nargsort model scaler =
      Ok (df_centers, risk_mapping, colors) /\
    Dict.get risk_mapping lowest = Some "Sangat Rawan (Bahaya)"%string /\
    Dict.get colors lowest = Some "#FF4B4B"%string /\
    Dict.get risk_mapping middle = Some "Waspada (Siaga)"%string /\
    Dict.get colors middle = Some "#FFA500"%string /\
    Dict.get risk_mapping highest = Some "Aman"%string /\
    Dict.get colors highest = Some "#28A745"%string.
Proof.
  intros Hcs HN Hlm Hmh.
  destruct (ltb_not_nan _ _ Hlm) as [Hl Hm].
  destruct (ltb_not_nan _ _ Hmh) as [_ Hh].
  apply elevation_in_range in Hl, Hm, Hh.
  destruct (sorted_position nargsort nargsort_indexer cs _ Hl)
    as (p & Hp & Hpl).
  destruct (sorted_position nargsort nargsort_indexer cs _ Hm)
    as (q & Hq & Hqm).
  destruct (sorted_position nargsort nargsort_indexer cs _ Hh)
    as (r & Hr & Hrh).
  assert (Hpq : p < q).
  { apply (lower_comes_first nargsort nargsort_indexer nargsort_ascending cs);
      auto. now rewrite Hpl, Hqm. }
  assert (Hqr : q < r).
  { apply (lower_comes_first nargsort nargsort_indexer nargsort_ascending cs);
      auto. now rewrite Hqm, Hrh. }
  assert (p = 0 /\ q = 1 /\ r = 2) as (-> & -> & ->) by lia.
  do 3 eexists.
  split; [exact (get_cluster_info_closed _ _ _ _ nargsort_indexer Hcs)|].
  rewrite <- Hpl at 1 2. rewrite <- Hqm at 1 2. rewrite <- Hrh at 1 2.
  repeat split; apply (assignment_at nargsort nargsort_indexer cs); lia.
Qed.

(** C8.  Two centre sets with the same elevations, cluster by cluster, get
    the same risk mapping and the same colour mapping, whatever their
    rainfall values. *)
Theorem rainfall_noninterference (model model' : Model)
    (scaler scaler' : Scaler) (cs cs' : list features) :
  inverse_transform scaler (cluster_centers_ model) = Ok cs ->
  inverse_transform scaler' (cluster_centers_ model') = Ok cs' ->
  map snd cs = map snd cs' ->
  exists df_centers df_centers' risk_mapping colors,
    get_cluster_info nargsort model scaler =
      Ok (df_centers, risk_mapping, colors) /\
    get_cluster_info nargsort model' scaler' =
      Ok (df_centers', risk_mapping, colors).
Proof.
  intros Hcs Hcs' Helev.
  rewrite (get_cluster_info_closed _ _ _ _ nargsort_indexer Hcs).
  rewrite (get_cluster_info_closed _ _ _ _ nargsort_indexer Hcs').
  assert (Hlen : List.length cs = List.length cs')
    by now rewrite <- (length_map snd cs), Helev, length_map.
  rewrite Helev, Hlen. do 4 eexists. split; reflexivity.
Qed.

(** The loop over the centroids finds every colour and every category when
    the labels of the frame are keys of both dictionaries. *)
Lemma centroid_markers_ok (df : DataFrame) (risk_map color_map : Dict.dict) :
  (forall r, In r df ->
     In (Cluster_Label r) (Dict.keys risk_map) /\
     In (Cluster_Label r) (Dict.keys color_map)) ->
  exists markers, centroid_markers df risk_map color_map = Ok markers.
Proof.
  induction df as [|r df IH]; intro Hkeys; simpl; [eauto|].
  destruct (Hkeys r (or_introl eq_refl)) as [Hr Hc].
  apply get_keys in Hr as [risk Hr]. apply get_keys in Hc as [color Hc].
  destruct IH as [ms Hms]; [intros; apply Hkeys; now right|].
  unfold Dict.getitem. rewrite Hr, Hc, Hms. simpl. eauto.
Qed.

(** The prediction block, statement by statement, once the assignment is
    bound: an exception of the scaler or of the model leaves the block as it
    is; otherwise both lookups are made with the predicted cluster. *)
Lemma tab1_outcome (model : Model) (scaler : Scaler) (df : DataFrame)
    (risk_map color_map : Dict.dict) (val_hujan val_elevasi : float) :
  (forall r, In r df ->
     In (Cluster_Label r) (Dict.keys risk_map) /\
     In (Cluster_Label r) (Dict.keys color_map)) ->
  let g := interpreted model scaler (df, risk_map, color_map) in
  match transform scaler (val_hujan, val_elevasi) with
  | Raise e => fst (tab1 val_hujan val_elevasi g) = Raise e
  | Ok input_scaled =>
      match predict model input_scaled with
      | Raise e => fst (tab1 val_hujan val_elevasi g) = Raise e
      | Ok prediction =>
          match Dict.get risk_map prediction, Dict.get color_map prediction with
          | Some text, Some color =>
              exists markers,
                fst (tab1 val_hujan val_elevasi g) =
                  Ok (Some {| result_text := text; result_color := color;
                              centroids := markers |})
          | _, _ =>
              fst (tab1 val_hujan val_elevasi g) = Raise (KeyError prediction)
          end
      end
  end.
Proof.
  intros Hkeys g.
  unfold tab1, then_, read, lift, name, unit_, Dict.getitem. simpl.
  destruct (transform scaler (val_hujan, val_elevasi)) as [v|e];
    [|reflexivity].
  destruct (predict model v) as [k|e]; [|reflexivity].
  destruct (Dict.get risk_map k) as [text|]; [|reflexivity].
  destruct (Dict.get color_map k) as [color|]; [|reflexivity].
  destruct (centroid_markers_ok df risk_map color_map Hkeys) as [ms Hms].
  rewrite Hms. exists ms. reflexivity.
Qed.

Lemma interpret_clusters_loaded (model : Model) (scaler : Scaler)
    (info : DataFrame * Dict.dict * Dict.dict) :
  get_cluster_info nargsort model scaler = Ok info ->
  interpret_clusters nargsort (loaded model scaler) =
    (Ok tt, interpreted model scaler info) /\
  interpret_clusters nargsort (interpreted model scaler info) =
    (Ok tt, interpreted model scaler info).
Proof.
  intro H. unfold interpret_clusters, loaded, interpreted. simpl.
  rewrite H. now destruct info as [[df rm] cm].
Qed.

(** C10.  The two dictionaries have the same keys, the cluster ids
    [0 .. N-1]; so, for a prediction in that range, [risk_map[prediction]]
    and [color_map[prediction]] are both found, and the prediction block
    ends either with the exception of the scaler or the model, or with its
    view: it raises no [KeyError] of its own. *)
Theorem lookups_succeed (model : Model) (scaler : Scaler)
    (cs : list features) :
  inverse_transform scaler (cluster_centers_ model) = Ok cs ->
  (forall x k, predict model x = Ok k -> k < List.length cs) ->
  exists df_centers risk_map color_map,
    interpret_clusters nargsort (loaded model scaler) =
      (Ok tt, interpreted model scaler (df_centers, risk_map, color_map)) /\
    Dict.keys risk_map = Dict.keys color_map /\
    Permutation (Dict.keys risk_map) (seq 0 (List.length cs)) /\
    (forall k, k < List.length cs ->
       exists text color,
         Dict.getitem risk_map k = Ok text /\
         Dict.getitem color_map k = Ok color) /\
    forall val_hujan val_elevasi,
      let g := interpreted model scaler (df_centers, risk_map, color_map) in
      match transform scaler (val_hujan, val_elevasi) with
      | Raise e => fst (tab1 val_hujan val_elevasi g) = Raise e
      | Ok input_scaled =>
          match predict model input_scaled with
          | Raise e => fst (tab1 val_hujan val_elevasi g) = Raise e
          | Ok prediction =>
              exists text color markers,
                Dict.getitem risk_map prediction = Ok text /\
                Dict.getitem color_map prediction = Ok color /\
                fst (tab1 val_hujan val_elevasi g) =
                  Ok (Some {| result_text := text; result_color := color;
                              centroids := markers |})
          end
      end.
Proof.
  intros Hcs Hrange.
  pose proof (get_cluster_info_closed _ _ _ _ nargsort_indexer Hcs) as Hinfo.
  pose proof (indexer_length nargsort (map snd cs) nargsort_indexer) as Hlen.
  rewrite length_map in Hlen.
  assert (HP : Permutation (nargsort (map snd cs)) (seq 0 (List.length cs))).
  { rewrite <- (length_map snd cs). apply nargsort_indexer. }
  set (risk_map := combine (nargsort (map snd cs))
                     (map category_at (seq 0 (List.length cs)))) in *.
  set (color_map := combine (nargsort (map snd cs))
                      (map color_at (seq 0 (List.length cs)))) in *.
  assert (Hkr : Dict.keys risk_map = nargsort (map snd cs))
    by (apply keys_combine; now rewrite category_at_length).
  assert (Hkc : Dict.keys color_map = nargsort (map snd cs))
    by (apply keys_combine; now rewrite color_at_length).
  assert (Hfound : forall k, k < List.length cs ->
            exists text color,
              Dict.get risk_map k = Some text /\
              Dict.get color_map k = Some color).
  { intros k Hk.
    destruct (get_keys risk_map k) as [text Ht].
    { rewrite Hkr. eapply Permutation_in; [symmetry; exact HP|].
      apply in_seq. lia. }
    destruct (get_keys color_map k) as [color Hc].
    { rewrite Hkc. eapply Permutation_in; [symmetry; exact HP|].
      apply in_seq. lia. }
    eauto. }
  exists (centers_frame cs), risk_map, color_map.
  split; [now apply interpret_clusters_loaded|].
  split; [congruence|].
  split; [now rewrite Hkr|].
  split.
  - intros k Hk. destruct (Hfound k Hk) as (text & color & Ht & Hc).
    exists text, color. unfold Dict.getitem. now rewrite Ht, Hc.
  - intros val_hujan val_elevasi g.
    assert (Hkeys : forall r, In r (centers_frame cs) ->
              In (Cluster_Label r) (Dict.keys risk_map) /\
              In (Cluster_Label r) (Dict.keys color_map)).
    { intros r Hr. rewrite Hkr, Hkc.
      assert (In (Cluster_Label r) (seq 0 (List.length cs))).
      { rewrite <- centers_frame_labels. now apply in_map. }
      split; eapply Permutation_in; try (symmetry; exact HP); assumption. }
    pose proof (tab1_outcome model scaler (centers_frame cs) risk_map
                  color_map val_hujan val_elevasi Hkeys) as Hout.
    cbv zeta in Hout. fold g in Hout.
    destruct (transform scaler (val_hujan, val_elevasi)) as [v|e];
      [|exact Hout].
    destruct (predict model v) as [k|e] eqn:Hk; [|exact Hout].
    destruct (Hfound k (Hrange v k Hk)) as (text & color & Ht & Hc).
    rewrite Ht, Hc in Hout. destruct Hout as [ms Hms].
    exists text, color, ms. unfold Dict.getitem. now rewrite Ht, Hc.
Qed.

(** C9 (as the code has it).  The frame that [get_cluster_info] returns is
    the unsorted one: row [i] is the centre of cluster [i]; the table of the
    second tab lists the centres in that order, each with the category of
    its cluster. *)
Theorem returned_frame_in_cluster_order (model : Model) (scaler : Scaler)
    (cs : list features) :
  inverse_transform scaler (cluster_centers_ model) = Ok cs ->
  exists df_centers risk_mapping colors table,
    get_cluster_info nargsort model scaler =
      Ok (df_centers, risk_mapping, colors) /\
    map Cluster_Label df_centers = seq 0 (List.length cs) /\
    map (fun r => (Curah_Hujan r, Elevasi r)) df_centers = cs /\
    fst (tab2 (interpreted model scaler (df_centers, risk_mapping, colors))) =
      Ok table /\
    map (fun t : table_row => fst (fst t)) table =
      map (Dict.get risk_mapping) (seq 0 (List.length cs)) /\
    map (fun t : table_row => (snd (fst t), snd t)) table = cs.
Proof.
  intro Hcs.
  exists (centers_frame cs). do 3 eexists.
  split; [exact (get_cluster_info_closed _ _ _ _ nargsort_indexer Hcs)|].
  split; [apply centers_frame_labels|].
  split; [apply centers_frame_features|].
  split; [reflexivity|].
  rewrite !map_map. cbn [fst snd]. split.
  - etransitivity; [symmetry; apply (map_map Cluster_Label)|].
    f_equal. apply centers_frame_labels.
  - apply centers_frame_features.
Qed.

Lemma eqb_sym (x y : float) : Float64.eqb x y = Float64.eqb y x.
Proof. destruct x, y; simpl; auto using Z.eqb_sym. Qed.

Lemma StronglySorted_weaken {A : Type} (R R' : A -> A -> Prop) (l : list A) :
  (forall x y, In x l -> In y l -> R x y -> R' x y) ->
  StronglySorted R l -> StronglySorted R' l.
Proof.
  intros HR Hl. induction Hl as [|a l Hl IH Ha]; constructor.
  - apply IH. intros x y Hx Hy. apply HR; now right.
  - rewrite Forall_forall in *. intros y Hy.
    apply HR; simpl; auto.
Qed.

End Claims.

(** ** The script around the labelling *)




(** C3.  When both files are missing, [load_models] shows its message and
    the first tab shows nothing, but the second tab reads [df_centers],
    which line 118 never bound: the run ends with a [NameError]. *)
Theorem missing_model_breaks_second_tab (nargsort : list float -> list nat)
    (val_hujan val_elevasi : float) :
  fst (load_models missing_files fresh) = Ok (None, None) /\
  fst (app nargsort missing_files val_hujan val_elevasi fresh) =
    Raise (NameError "df_centers") /\
  st_errors (snd (app nargsort missing_files val_hujan val_elevasi fresh)) =
    [model_not_found] /\
  fst (tab1 val_hujan val_elevasi
         (snd (app nargsort missing_files val_hujan val_elevasi fresh))) =
    Ok None /\
  fst (tab2 (snd (app nargsort missing_files val_hujan val_elevasi fresh))) =
    Raise (NameError "df_centers").
Proof. repeat split. Qed.

(** C6 (as the specification has it) fails: an indexer that meets what
    pandas promises for the default sort may leave two centres of equal
    elevation in the opposite order; then, of clusters 0 and 1 at the same
    elevation, cluster 1 gets the more severe category. *)
Lemma unstable_sort_reverses_ties :
  indexer_of reversing_nargsort /\
  ascending reversing_nargsort /\
  Float64.eqb (elevation shared_ridge 0) (elevation shared_ridge 1) = true /\
  exists df_centers,
    get_cluster_info reversing_nargsort (kmeans shared_ridge) unit_scaler =
      Ok (df_centers,
          [(3, "Sangat Rawan (Bahaya)"%string); (2, "Waspada (Siaga)"%string);
           (1, "Aman"%string); (0, "Level 3"%string)],
          [(3, "#FF4B4B"%string); (2, "#FFA500"%string);
           (1, "#28A745"%string); (0, "#808080"%string)]).
Proof.
  split; [apply reversing_nargsort_indexer|].
  split; [apply reversing_nargsort_ascending|].
  split; [vm_compute; reflexivity|].
  eexists. vm_compute. reflexivity.
Qed.

(** C9 (as the specification has it) fails: for centres at 5, 2 and 40 mdpl
    the returned frame keeps that order, which is not ascending, and it is
    not the sorted frame. *)
Lemma returned_frame_not_sorted :
  exists df_centers risk_mapping colors df_sorted,
    get_cluster_info stable_nargsort (kmeans lhokseumawe) unit_scaler =
      Ok (df_centers, risk_mapping, colors) /\
    map Elevasi df_centers = [of_Z 5; of_Z 2; of_Z 40] /\
    sort_values_Elevasi stable_nargsort df_centers = Ok df_sorted /\
    map Elevasi df_sorted = [of_Z 2; of_Z 5; of_Z 40] /\
    df_centers <> df_sorted /\
    ~ StronglySorted (fun x y => na_last_leb x y = true)
        (map Elevasi df_centers).
Proof.
  do 4 eexists.
  split; [vm_compute; reflexivity|].
  split; [vm_compute; reflexivity|].
  split; [vm_compute; reflexivity|].
  split; [vm_compute; reflexivity|].
  split; [discriminate|].
  intro H. apply StronglySorted_inv in H as [_ H].
  apply Forall_inv in H. vm_compute in H. discriminate.
Qed.

(** ** The statements at work on concrete models *)

Lemma nearest_range (x : features) (centers : list features) :
  forall i best k,
    (forall j d, best = Some (j, d) -> j < i) ->
    nearest x centers i best = Some k ->
    k < i + List.length centers.
Proof.
  induction centers as [|c rest IH]; intros i best k Hbest; simpl.
  - destruct best as [[j d]|]; simpl; [|discriminate].
    intros [= <-]. specialize (Hbest j d eq_refl). lia.
  - destruct (distance2 x c) as [d|]; [|discriminate].
    destruct best as [[j dj]|]; intro Hk; apply IH in Hk; try lia.
    + intros j' d' Hj'. specialize (Hbest j dj eq_refl).
      destruct (d <? dj)%Z; injection Hj' as <- <-; lia.
    + intros j' d' [= <- <-]. lia.
Qed.

Lemma kmeans_predict_range (centers : list features) (x : features) (k : nat) :
  predict (kmeans centers) x = Ok k -> k < List.length centers.
Proof.
  simpl. destruct (nearest x centers 0 None) as [k'|] eqn:Hn; [|discriminate].
  intros [= <-]. apply nearest_range in Hn; [lia | discriminate].
Qed.

Lemma risk_mapping_total_lhokseumawe :
  exists df_centers risk_mapping colors,
    get_cluster_info stable_nargsort (kmeans lhokseumawe) unit_scaler =
      Ok (df_centers, risk_mapping, colors) /\
    Permutation (Dict.keys risk_mapping) (seq 0 (List.length lhokseumawe)) /\
    (forall k, k < List.length lhokseumawe ->
       count_occ Nat.eq_dec (Dict.keys risk_mapping) k = 1) /\
    (forall k, k < List.length lhokseumawe ->
       exists category, Dict.get risk_mapping k = Some category).
Proof.
  exact (risk_mapping_total stable_nargsort stable_nargsort_indexer
           (kmeans lhokseumawe) unit_scaler lhokseumawe eq_refl).
Defined.

Lemma rank_increases_lhokseumawe :
  Float64.ltb (elevation lhokseumawe 1) (elevation lhokseumawe 2) = true /\
  exists df_centers risk_mapping colors category_a category_b rank_a rank_b,
    get_cluster_info stable_nargsort (kmeans lhokseumawe) unit_scaler =
      Ok (df_centers, risk_mapping, colors) /\
    Dict.get risk_mapping 1 = Some category_a /\
    Dict.get risk_mapping 2 = Some category_b /\
    category_rank category_a = Some rank_a /\
    category_rank category_b = Some rank_b /\
    rank_a < rank_b.
Proof.
  assert (H : Float64.ltb (elevation lhokseumawe 1) (elevation lhokseumawe 2)
              = true) by (vm_compute; reflexivity).
  split; [exact H|].
  exact (rank_increases_with_elevation stable_nargsort stable_nargsort_indexer
           stable_nargsort_ascending (kmeans lhokseumawe) unit_scaler
           lhokseumawe 1 2 eq_refl H).
Defined.

Lemma three_clusters_lhokseumawe :
  exists df_centers risk_mapping colors,
    get_cluster_info stable_nargsort (kmeans lhokseumawe) unit_scaler =
      Ok (df_centers, risk_mapping, colors) /\
    Dict.get risk_mapping 1 = Some "Sangat Rawan (Bahaya)"%string /\
    Dict.get colors 1 = Some "#FF4B4B"%string /\
    Dict.get risk_mapping 0 = Some "Waspada (Siaga)"%string /\
    Dict.get colors 0 = Some "#FFA500"%string /\
    Dict.get risk_mapping 2 = Some "Aman"%string /\
    Dict.get colors 2 = Some "#28A745"%string.
Proof.
  apply (three_clusters_by_elevation stable_nargsort stable_nargsort_indexer
           stable_nargsort_ascending (kmeans lhokseumawe) unit_scaler
           lhokseumawe 1 0 2 eq_refl eq_refl); vm_compute; reflexivity.
Defined.

Lemma rainfall_noninterference_dry_season :
  map snd lhokseumawe = map snd dry_season /\
  lhokseumawe <> dry_season /\
  exists df_centers df_centers' risk_mapping colors,
    get_cluster_info stable_nargsort (kmeans lhokseumawe) unit_scaler =
      Ok (df_centers, risk_mapping, colors) /\
    get_cluster_info stable_nargsort (kmeans dry_season) unit_scaler =
      Ok (df_centers', risk_mapping, colors).
Proof.
  split; [reflexivity|]. split; [discriminate|].
  exact (rainfall_noninterference stable_nargsort stable_nargsort_indexer
           (kmeans lhokseumawe) (kmeans dry_season) unit_scaler unit_scaler
           lhokseumawe dry_season eq_refl eq_refl eq_refl).
Defined.

Lemma lookups_succeed_lhokseumawe :
  exists df_centers risk_map color_map,
    interpret_clusters stable_nargsort (loaded (kmeans lhokseumawe) unit_scaler)
    = (Ok tt, interpreted (kmeans lhokseumawe) unit_scaler
                (df_centers, risk_map, color_map)) /\
    Dict.keys risk_map = Dict.keys color_map /\
    Permutation (Dict.keys risk_map) (seq 0 (List.length lhokseumawe)).
Proof.
  destruct (lookups_succeed stable_nargsort stable_nargsort_indexer
              (kmeans lhokseumawe) unit_scaler lhokseumawe eq_refl
              (kmeans_predict_range lhokseumawe))
    as (df & rm & cm & Hrun & Hkeys & Hperm & _).
  exists df, rm, cm. auto.
Defined.

Lemma returned_frame_lhokseumawe :
  exists df_centers risk_mapping colors,
    get_cluster_info stable_nargsort (kmeans lhokseumawe) unit_scaler =
      Ok (df_centers, risk_mapping, colors) /\
    map Cluster_Label df_centers = seq 0 (List.length lhokseumawe) /\
    map (fun r => (Curah_Hujan r, Elevasi r)) df_centers = lhokseumawe.
Proof.
  destruct (returned_frame_in_cluster_order stable_nargsort
              stable_nargsort_indexer (kmeans lhokseumawe) unit_scaler
              lhokseumawe eq_refl)
    as (df & rm & cm & table & Hinfo & Hlabels & Hfeatures & _).
  exists df, rm, cm. auto.
Defined.

(** * Further properties of the script *)

(** ** More on the order of doubles *)

Lemma na_last_leb_refl (x : float) : na_last_leb x x = true.
Proof.
  destruct x; unfold na_last_leb, Float64.leb; simpl; auto.
  now rewrite Z.eqb_refl, orb_true_r.
Qed.

Lemma na_last_leb_nan (x y : float) :
  isnan x = true -> isnan y = false -> na_last_leb x y = false.
Proof. now destruct x, y. Qed.

(** A value squeezed between two equal ones is equal to them. *)
Lemma eqb_squeeze (x y z : float) :
  Float64.eqb x y = true ->
  na_last_leb x z = true -> na_last_leb z y = true ->
  Float64.eqb x z = true.
Proof.
  unfold na_last_leb, Float64.leb.
  destruct x, y, z; simpl; try reflexivity; try discriminate.
  rewrite !orb_true_iff, !Z.ltb_lt, !Z.eqb_eq. lia.
Qed.

(** ** More on dictionaries *)

Lemma values_combine (ks : list nat) (vs : list string) :
  List.length ks = List.length vs -> map snd (combine ks vs) = vs.
Proof.
  revert vs. induction ks as [|k ks IH]; intros [|v vs] Hlen;
    simpl in *; try discriminate; [reflexivity|].
  f_equal. apply IH. lia.
Qed.

Lemma get_in_keys (d : Dict.dict) (k : nat) (v : string) :
  Dict.get d k = Some v -> In k (Dict.keys d).
Proof.
  induction d as [|[k' v'] d IH]; simpl; [discriminate|].
  destruct (Nat.eqb_spec k k') as [->|_]; auto.
Qed.

(** ** The scale and what lies beyond it *)

Lemma categories_in_order (n : nat) :
  map category_at (seq 0 n) =
  firstn n labels ++ map (fun i => ("Level " ++ str i)%string) (seq 3 (n - 3)).
Proof.
  destruct n as [|[|[|n]]]; try reflexivity.
  change (seq 0 (S (S (S n)))) with ([0; 1; 2] ++ seq 3 n).
  rewrite map_app. cbn [Nat.sub]. rewrite Nat.sub_0_r.
  f_equal; [simpl; now rewrite firstn_nil|].
  apply map_ext_in. intros i Hi. apply in_seq in Hi.
  unfold category_at. change (List.length labels) with 3.
  destruct (Nat.ltb_spec i 3); [lia | reflexivity].
Qed.

Lemma colors_in_order (n : nat) :
  map color_at (seq 0 n) =
  firstn n color_codes ++ repeat "#808080"%string (n - 3).
Proof.
  destruct n as [|[|[|n]]]; try reflexivity.
  change (seq 0 (S (S (S n)))) with ([0; 1; 2] ++ seq 3 n).
  rewrite map_app. cbn [Nat.sub]. rewrite Nat.sub_0_r.
  f_equal; [simpl; now rewrite firstn_nil|].
  assert (H : forall m s', 3 <= s' ->
            map color_at (seq s' m) = repeat "#808080"%string m).
  { induction m as [|m IH]; intros s' Hs'; simpl; [reflexivity|].
    rewrite IH by lia. f_equal. unfold color_at.
    change (List.length labels) with 3.
    destruct (Nat.ltb_spec s' 3); [lia | reflexivity]. }
  apply H. lia.
Qed.

Lemma color_at_category_at (p j : nat) :
  j < 3 ->
  (category_at p = nth j labels ""%string <->
   color_at p = nth j color_codes ""%string).
Proof.
  intro Hj. unfold category_at, color_at. change (List.length labels) with 3.
  destruct (Nat.ltb_spec p 3) as [Hp|Hp].
  - destruct p as [|[|[|p]]]; try lia;
      destruct j as [|[|[|j]]]; try lia; simpl; split; auto; discriminate.
  - destruct j as [|[|[|j]]]; try lia; simpl; split; discriminate.
Qed.

(** ** More on the assignment *)

Section Assignment.

Variable nargsort : list float -> list nat.
Hypothesis nargsort_indexer : indexer_of nargsort.

Variables (model : Model) (scaler : Scaler) (cs : list features).
Variables (df_centers : DataFrame) (risk_mapping colors : Dict.dict).
Hypothesis centers :
  inverse_transform scaler (cluster_centers_ model) = Ok cs.
Hypothesis returned :
  get_cluster_info nargsort model scaler =
    Ok (df_centers, risk_mapping, colors).

Lemma returned_closed :
  df_centers = centers_frame cs /\
  risk_mapping = combine (nargsort (map snd cs))
                   (map category_at (seq 0 (List.length cs))) /\
  colors = combine (nargsort (map snd cs))
             (map color_at (seq 0 (List.length cs))).
Proof.
  pose proof returned as H.
  rewrite (get_cluster_info_closed _ _ _ _ nargsort_indexer centers) in H.
  injection H as <- <- <-. auto.
Qed.

(** A cluster has rank [p] exactly when it is the one at sorted position
    [p]; its category and its colour are those of that position. *)
Lemma rank_of_position (a p : nat) :
  rank_of risk_mapping a = Some p <->
  p < List.length cs /\ nth p (nargsort (map snd cs)) 0 = a.
Proof.
  destruct returned_closed as (_ & Hrm & _).
  pose proof (indexer_length nargsort (map snd cs) nargsort_indexer) as Hlen.
  rewrite length_map in Hlen.
  unfold rank_of. split.
  - destruct (Dict.get risk_mapping a) as [c|] eqn:Hget; [|discriminate].
    intro Hrank.
    assert (Ha : a < List.length cs).
    { apply get_in_keys in Hget. rewrite Hrm, keys_combine in Hget
        by now rewrite category_at_length.
      apply (Permutation_in _ (nargsort_indexer _)), in_seq in Hget.
      rewrite length_map in Hget. lia. }
    destruct (sorted_position nargsort nargsort_indexer cs a Ha)
      as (q & Hq & Hqa).
    destruct (assignment_at nargsort nargsort_indexer cs q Hq) as [Hc _].
    rewrite Hqa, <- Hrm, Hget in Hc. injection Hc as ->.
    rewrite category_rank_at in Hrank. injection Hrank as <-. auto.
  - intros [Hp <-].
    destruct (assignment_at nargsort nargsort_indexer cs p Hp) as [Hc _].
    rewrite <- Hrm in Hc. rewrite Hc. apply category_rank_at.
Qed.

Lemma position_assignment (p : nat) :
  p < List.length cs ->
  Dict.get risk_mapping (nth p (nargsort (map snd cs)) 0) =
    Some (category_at p) /\
  Dict.get colors (nth p (nargsort (map snd cs)) 0) = Some (color_at p).
Proof.
  destruct returned_closed as (_ & -> & ->).
  apply (assignment_at nargsort nargsort_indexer cs).
Qed.

Lemma cluster_has_rank (a : nat) :
  a < List.length cs -> exists p, rank_of risk_mapping a = Some p.
Proof.
  intro Ha.
  destruct (sorted_position nargsort nargsort_indexer cs a Ha)
    as (p & Hp & Hpa).
  exists p. apply rank_of_position. auto.
Qed.

(** X5.  Category and colour go together: a cluster carries the [j]-th name
    of the scale exactly when it carries the [j]-th colour, and it is grey
    exactly when its name is a ["Level i"] beyond the scale. *)
Theorem colour_follows_category (k : nat) :
  k < List.length cs ->
  (forall j, j < 3 ->
     Dict.get risk_mapping k = Some (nth j labels ""%string) <->
     Dict.get colors k = Some (nth j color_codes ""%string)) /\
  ((exists i, 3 <= i /\
      Dict.get risk_mapping k = Some ("Level " ++ str i)%string) <->
   Dict.get colors k = Some "#808080"%string).
Proof.
  intro Hk.
  destruct (sorted_position nargsort nargsort_indexer cs k Hk)
    as (p & Hp & Hpk).
  destruct (position_assignment p Hp) as [Hc Hcol].
  rewrite Hpk in Hc, Hcol. rewrite Hc, Hcol. split.
  - intros j Hj. pose proof (color_at_category_at p j Hj) as [H1 H2].
    split; intros [= H]; f_equal; auto.
  - unfold category_at, color_at. change (List.length labels) with 3.
    destruct (Nat.ltb_spec p 3) as [Hp3|Hp3].
    + split.
      * intros (i & Hi & [= H]).
        destruct p as [|[|[|p]]]; try lia; discriminate.
      * intros [= H]. destruct p as [|[|[|p]]]; try lia; discriminate.
    + split; [reflexivity|]. intros _. exists p. auto.
Qed.

(** X6.  No two clusters share a category: a category name identifies its
    cluster. *)
Theorem categories_distinct (a b : nat) (category : string) :
  Dict.get risk_mapping a = Some category ->
  Dict.get risk_mapping b = Some category ->
  a = b.
Proof.
  intros Ha Hb.
  assert (Hin : forall k, Dict.get risk_mapping k = Some category ->
            exists p, rank_of risk_mapping k = Some p /\
                      category = category_at p).
  { intros k Hk.
    assert (Hlt : k < List.length cs).
    { destruct returned_closed as (_ & Hrm & _).
      pose proof (indexer_length nargsort (map snd cs) nargsort_indexer)
        as Hlen.
      rewrite length_map in Hlen.
      apply get_in_keys in Hk. rewrite Hrm, keys_combine in Hk
        by now rewrite category_at_length.
      apply (Permutation_in _ (nargsort_indexer _)), in_seq in Hk.
      rewrite length_map in Hk. lia. }
    destruct (cluster_has_rank k Hlt) as [p Hp]. exists p.
    split; [exact Hp|].
    apply rank_of_position in Hp as [Hp <-].
    destruct (position_assignment p Hp) as [Hc _]. congruence. }
  destruct (Hin a Ha) as (p & Hp & Hcp).
  destruct (Hin b Hb) as (q & Hq & Hcq).
  assert (p = q) as -> by (apply category_at_inj; congruence).
  apply rank_of_position in Hp as [_ <-].
  now apply rank_of_position in Hq as [_ <-].
Qed.

(** X10.  In the order in which the loop writes them, the categories are
    the first [N] names of the scale followed by ["Level 3"], ["Level 4"],
    ..., and the colours the first [N] colours followed by grey: with
    fewer than three centres the last names of the scale are not used. *)
Theorem categories_used :
  map snd risk_mapping =
    firstn (List.length cs) labels ++
    map (fun i => ("Level " ++ str i)%string) (seq 3 (List.length cs - 3)) /\
  map snd colors =
    firstn (List.length cs) color_codes ++
    repeat "#808080"%string (List.length cs - 3).
Proof.
  destruct returned_closed as (_ & -> & ->).
  pose proof (indexer_length nargsort (map snd cs) nargsort_indexer) as Hlen.
  rewrite length_map in Hlen.
  rewrite !values_combine
    by now rewrite Hlen, ?category_at_length, ?color_at_length.
  split; [apply categories_in_order | apply colors_in_order].
Qed.

Hypothesis nargsort_ascending : ascending nargsort.

Lemma positions_ascend (p q : nat) :
  p <= q -> q < List.length cs ->
  na_last_leb (elevation cs (nth p (nargsort (map snd cs)) 0))
              (elevation cs (nth q (nargsort (map snd cs)) 0)) = true.
Proof.
  intros Hpq Hq.
  destruct (proj1 (Nat.lt_eq_cases p q) Hpq) as [Hlt | ->];
    [|apply na_last_leb_refl].
  apply (StronglySorted_nth _ _ 0 (nargsort_ascending (map snd cs)) p q Hlt).
  rewrite (indexer_length nargsort (map snd cs) nargsort_indexer).
  now rewrite length_map.
Qed.

(** X7.  The ranks never contradict the elevations: a cluster of lower or
    equal rank lies at most as high as the other one (a NaN counting as
    highest).  So the cluster called "Sangat Rawan (Bahaya)" is a lowest
    one. *)
Theorem rank_respects_elevation (a b rank_a rank_b : nat) :
  rank_of risk_mapping a = Some rank_a ->
  rank_of risk_mapping b = Some rank_b ->
  rank_a <= rank_b ->
  na_last_leb (elevation cs a) (elevation cs b) = true.
Proof.
  intros Ha Hb Hab.
  apply rank_of_position in Ha as [_ <-].
  apply rank_of_position in Hb as [Hb <-].
  now apply positions_ascend.
Qed.

(** X4.  A centre whose elevation is NaN is ranked after every centre
    with a proper elevation: it gets a less severe category. *)
Theorem nan_centres_rank_last (a b : nat) :
  a < List.length cs -> b < List.length cs ->
  isnan (elevation cs a) = false -> isnan (elevation cs b) = true ->
  exists rank_a rank_b,
    rank_of risk_mapping a = Some rank_a /\
    rank_of risk_mapping b = Some rank_b /\
    rank_a < rank_b.
Proof.
  intros Ha Hb Hna Hnb.
  destruct (cluster_has_rank a Ha) as [p Hp].
  destruct (cluster_has_rank b Hb) as [q Hq].
  exists p, q. repeat split; auto.
  destruct (Nat.lt_ge_cases p q) as [|Hqp]; [assumption|].
  apply rank_of_position in Hp as [Hp Hpa].
  apply rank_of_position in Hq as [_ Hqb].
  pose proof (positions_ascend q p Hqp Hp) as H.
  rewrite Hpa, Hqb, na_last_leb_nan in H by assumption. discriminate.
Qed.

(** X13.  Centres of one elevation get neighbouring ranks: a cluster
    ranked between two clusters of equal elevation has that elevation
    too. *)
Theorem ties_are_contiguous (a b c rank_a rank_b rank_c : nat) :
  rank_of risk_mapping a = Some rank_a ->
  rank_of risk_mapping b = Some rank_b ->
  rank_of risk_mapping c = Some rank_c ->
  rank_a <= rank_c -> rank_c <= rank_b ->
  Float64.eqb (elevation cs a) (elevation cs b) = true ->
  Float64.eqb (elevation cs a) (elevation cs c) = true.
Proof.
  intros Ha Hb Hc Hac Hcb Heq.
  apply rank_of_position in Ha as [_ <-].
  apply rank_of_position in Hb as [Hb <-].
  apply rank_of_position in Hc as [Hc <-].
  eapply eqb_squeeze; [exact Heq | |]; apply positions_ascend; lia.
Qed.

End Assignment.

(** ** The sorted frame, row by row *)

Lemma map_nth_seq {A : Type} (l : list A) (d : A) :
  map (fun i => nth i l d) (seq 0 (List.length l)) = l.
Proof.
  induction l as [|a l IH]; [reflexivity|].
  cbn [List.length seq map nth]. f_equal.
  rewrite <- seq_shift, map_map. exact IH.
Qed.

Lemma take_rows (df : DataFrame) (indexer : list nat) (rows : DataFrame)
    (d : row) :
  take df indexer = Ok rows -> rows = map (fun i => nth i df d) indexer.
Proof.
  revert rows. induction indexer as [|i indexer IH]; intros rows; simpl.
  - now intros [= <-].
  - unfold getitem. destruct (nth_error df i) as [r|] eqn:Hr; [|discriminate].
    simpl. destruct (take df indexer) as [rs|]; [|discriminate].
    simpl. intros [= <-]. f_equal; [|now apply IH].
    symmetry. now apply nth_error_nth.
Qed.

(** Sorting neither adds nor drops a row. *)
Lemma take_permutation (df : DataFrame) (indexer : list nat)
    (rows : DataFrame) :
  Permutation indexer (seq 0 (List.length df)) ->
  take df indexer = Ok rows -> Permutation rows df.
Proof.
  intros HP Ht.
  rewrite (take_rows df indexer rows
             {| Curah_Hujan := NaN; Elevasi := NaN; Cluster_Label := 0 |} Ht).
  eapply Permutation_trans; [apply Permutation_map, HP|].
  now rewrite map_nth_seq.
Qed.

Lemma StronglySorted_of_nth {A : Type} (R : A -> A -> Prop) (l : list A)
    (d : A) :
  (forall p q, p < q -> q < List.length l -> R (nth p l d) (nth q l d)) ->
  StronglySorted R l.
Proof.
  induction l as [|a l IH]; intro H; constructor.
  - apply IH. intros p q Hpq Hq. apply (H (S p) (S q)); simpl; lia.
  - apply Forall_forall. intros x Hx.
    apply (In_nth _ _ d) in Hx as (q & Hq & <-).
    apply (H 0 (S q)); simpl; lia.
Qed.

Section Positions_of_the_sort.

Variable nargsort : list float -> list nat.
Hypothesis nargsort_indexer : indexer_of nargsort.

(** C6 (as the code has it).  The result is a function of the centre set:
    any model and scaler with these de-normalised centres give this frame
    and these mappings.  The cluster that the sort leaves at position [p]
    gets rank [p], so centres of one elevation are ranked in the order in
    which the sort leaves them.  Ties are therefore broken by ascending
    cluster id exactly when the sort leaves the rows of equal elevation of
    this frame in their original order; then, if all elevations are equal,
    cluster [i] gets the [i]-th category and colour. *)
Theorem ties_follow_the_sort (model : Model) (scaler : Scaler)
    (cs : list features) :
  inverse_transform scaler (cluster_centers_ model) = Ok cs ->
  exists df_centers risk_mapping colors,
    get_cluster_info nargsort model scaler =
      Ok (df_centers, risk_mapping, colors) /\
    (forall model' scaler',
       inverse_transform scaler' (cluster_centers_ model') = Ok cs ->
       get_cluster_info nargsort model' scaler' =
         Ok (df_centers, risk_mapping, colors)) /\
    (forall a p,
       rank_of risk_mapping a = Some p <->
       p < List.length cs /\ nth p (nargsort (map snd cs)) 0 = a) /\
    (keeps_ties_in_order nargsort (map snd cs) <->
     (forall a b, a < b ->
        Float64.eqb (elevation cs a) (elevation cs b) = true ->
        exists rank_a rank_b,
          rank_of risk_mapping a = Some rank_a /\
          rank_of risk_mapping b = Some rank_b /\
          rank_a < rank_b)) /\
    (keeps_ties_in_order nargsort (map snd cs) ->
     (forall a b, a < List.length cs -> b < List.length cs ->
        Float64.eqb (elevation cs a) (elevation cs b) = true) ->
     forall i, i < List.length cs ->
       Dict.get risk_mapping i = Some (category_at i) /\
       Dict.get colors i = Some (color_at i)).
Proof.
  intro Hcs.
  pose proof (get_cluster_info_closed _ _ _ _ nargsort_indexer Hcs) as Hinfo.
  pose proof (indexer_length nargsort (map snd cs) nargsort_indexer) as Hlen.
  rewrite length_map in Hlen.
  pose proof (rank_of_position nargsort nargsort_indexer model scaler cs
                _ _ _ Hcs Hinfo) as Hrank.
  do 3 eexists. split; [exact Hinfo|]. split; [|split; [exact Hrank|split]].
  - intros model' scaler' Hcs'.
    exact (get_cluster_info_closed _ _ _ _ nargsort_indexer Hcs').
  - split.
    + intros Hkeep a b Hab Heq.
      assert (Hnan : isnan (elevation cs a) = false /\
                     isnan (elevation cs b) = false)
        by now destruct (elevation cs a), (elevation cs b).
      destruct Hnan as [Ha Hb]. apply elevation_in_range in Ha, Hb.
      destruct (sorted_position nargsort nargsort_indexer cs a Ha)
        as (p & Hp & Hpa).
      destruct (sorted_position nargsort nargsort_indexer cs b Hb)
        as (q & Hq & Hqb).
      exists p, q. split; [now apply Hrank|]. split; [now apply Hrank|].
      destruct (Nat.lt_total p q) as [|[->|Hqp]]; [assumption | lia |].
      pose proof (StronglySorted_nth _ _ 0 Hkeep q p Hqp) as Hs.
      cbv beta in Hs. rewrite Hpa, Hqb in Hs.
      unfold elevation in Heq. rewrite eqb_sym in Heq.
      specialize (Hs ltac:(lia) Heq). lia.
    + intros Hties. apply (StronglySorted_of_nth _ _ 0).
      intros p q Hpq Hq Heq. rewrite Hlen in Hq.
      set (x := nth p (nargsort (map snd cs)) 0) in *.
      set (y := nth q (nargsort (map snd cs)) 0) in *.
      assert (Hx : rank_of
                     (combine (nargsort (map snd cs))
                        (map category_at (seq 0 (List.length cs)))) x =
                   Some p) by (apply Hrank; split; [lia | reflexivity]).
      assert (Hy : rank_of
                     (combine (nargsort (map snd cs))
                        (map category_at (seq 0 (List.length cs)))) y =
                   Some q) by (apply Hrank; split; [lia | reflexivity]).
      destruct (Nat.lt_total x y) as [|[Hxy|Hyx]]; [assumption | |].
      * rewrite Hxy in Hx. rewrite Hx in Hy. injection Hy as ->. lia.
      * rewrite eqb_sym in Heq.
        destruct (Hties y x Hyx Heq) as (ry & rx & Hry & Hrx & Hlt).
        rewrite Hy in Hry. rewrite Hx in Hrx.
        injection Hry as <-. injection Hrx as <-. lia.
  - intros Hkeep Hflat i Hi.
    assert (Hid : nargsort (map snd cs) = seq 0 (List.length cs)).
    { apply increasing_unique; [| apply seq_increasing |].
      - apply StronglySorted_weaken with (2 := Hkeep).
        intros x y Hx Hy Hxy. apply Hxy, Hflat.
        + apply (Permutation_in _ (nargsort_indexer _)), in_seq in Hx.
          rewrite length_map in Hx. lia.
        + apply (Permutation_in _ (nargsort_indexer _)), in_seq in Hy.
          rewrite length_map in Hy. lia.
      - rewrite <- (length_map snd cs). apply nargsort_indexer. }
    pose proof (assignment_at nargsort nargsort_indexer cs i Hi) as H.
    assert (Hnth : nth i (nargsort (map snd cs)) 0 = i)
      by (rewrite Hid; now apply seq_nth).
    cbv zeta in H. now rewrite Hnth in H.
Qed.

Hypothesis nargsort_ascending : ascending nargsort.

(** C5.  With more than three centres: the returned frame is the centres
    with their ids, the sorted frame is a rearrangement of it in ascending
    order of elevation, and the centre at a sorted position [i >= 3], and
    no other, is labelled ["Level i"], in the grey colour.  With five
    centres the rows at positions 3 and 4 are ["Level 3"] and
    ["Level 4"]. *)
Theorem fallback_beyond_scale (model : Model) (scaler : Scaler)
    (cs : list features) :
  inverse_transform scaler (cluster_centers_ model) = Ok cs ->
  3 < List.length cs ->
  exists df_centers risk_mapping colors df_sorted,
    get_cluster_info nargsort model scaler =
      Ok (df_centers, risk_mapping, colors) /\
    map (fun r => (Curah_Hujan r, Elevasi r)) df_centers = cs /\
    map Cluster_Label df_centers = seq 0 (List.length cs) /\
    sort_values_Elevasi nargsort df_centers = Ok df_sorted /\
    Permutation df_sorted df_centers /\
    StronglySorted (fun x y => na_last_leb x y = true)
      (map Elevasi df_sorted) /\
    (forall i, 3 <= i -> i < List.length cs ->
       exists r, nth_error df_sorted i = Some r /\
         Elevasi r = elevation cs (Cluster_Label r) /\
         Dict.get risk_mapping (Cluster_Label r) =
           Some ("Level " ++ str i)%string /\
         Dict.get colors (Cluster_Label r) = Some "#808080"%string) /\
    (forall k i, 3 <= i ->
       Dict.get risk_mapping k = Some ("Level " ++ str i)%string ->
       exists r, nth_error df_sorted i = Some r /\ Cluster_Label r = k /\
                 Elevasi r = elevation cs k) /\
    (List.length cs = 5 ->
       exists r3 r4,
         nth_error df_sorted 3 = Some r3 /\
         nth_error df_sorted 4 = Some r4 /\
         Dict.get risk_mapping (Cluster_Label r3) = Some "Level 3"%string /\
         Dict.get risk_mapping (Cluster_Label r4) = Some "Level 4"%string).
Proof.
  intros Hcs HN.
  destruct (sorted_frame nargsort cs nargsort_indexer)
    as (df_sorted & Hsort & Hlab & Helev & Hlen).
  pose proof (get_cluster_info_closed _ _ _ _ nargsort_indexer Hcs) as Hinfo.
  pose proof (rank_of_position nargsort nargsort_indexer model scaler cs
                _ _ _ Hcs Hinfo) as Hrank.
  assert (Hrow : forall i r, nth_error df_sorted i = Some r ->
            Cluster_Label r = nth i (nargsort (map snd cs)) 0 /\
            Elevasi r = elevation cs (Cluster_Label r)).
  { intros i r Hr.
    assert (Hid : Cluster_Label r = nth i (nargsort (map snd cs)) 0).
    { rewrite <- Hlab. symmetry. apply nth_error_nth.
      now rewrite nth_error_map, Hr. }
    split; [exact Hid|].
    assert (He : nth_error (map Elevasi df_sorted) i = Some (Elevasi r))
      by now rewrite nth_error_map, Hr.
    rewrite Helev, nth_error_map in He.
    destruct (nth_error (nargsort (map snd cs)) i) as [k|] eqn:Hk;
      [|discriminate].
    apply (nth_error_nth _ _ 0) in Hk. rewrite <- Hid in Hk. subst k.
    simpl in He. now injection He. }
  assert (Hlevel : forall i, 3 <= i -> i < List.length cs ->
    exists r, nth_error df_sorted i = Some r /\
      Elevasi r = elevation cs (Cluster_Label r) /\
      Dict.get (combine (nargsort (map snd cs))
                  (map category_at (seq 0 (List.length cs))))
        (Cluster_Label r) = Some ("Level " ++ str i)%string /\
      Dict.get (combine (nargsort (map snd cs))
                  (map color_at (seq 0 (List.length cs))))
        (Cluster_Label r) = Some "#808080"%string).
  { intros i Hi HiN.
    destruct (nth_error df_sorted i) as [r|] eqn:Hr.
    2:{ apply nth_error_None in Hr. lia. }
    exists r. split; [reflexivity|].
    destruct (Hrow i r Hr) as [Hid He]. split; [exact He|].
    rewrite Hid.
    destruct (assignment_at nargsort nargsort_indexer cs i HiN) as [Hc Hk].
    rewrite Hc, Hk. unfold category_at, color_at.
    change (List.length labels) with 3.
    destruct (Nat.ltb_spec i 3); [lia | now split]. }
  exists (centers_frame cs). do 2 eexists. exists df_sorted.
  split; [exact Hinfo|].
  split; [apply centers_frame_features|].
  split; [apply centers_frame_labels|].
  split; [exact Hsort|].
  split.
  { apply (take_permutation (centers_frame cs)
             (nargsort (map Elevasi (centers_frame cs)))); [|exact Hsort].
    rewrite centers_frame_Elevasi, centers_frame_length.
    rewrite <- (length_map snd cs). apply nargsort_indexer. }
  split; [rewrite Helev; apply StronglySorted_map, nargsort_ascending|].
  split; [exact Hlevel|].
  split.
  - intros k i Hi Hget.
    assert (Hk : rank_of
                   (combine (nargsort (map snd cs))
                      (map category_at (seq 0 (List.length cs)))) k =
                 Some i).
    { unfold rank_of. rewrite Hget.
      replace ("Level " ++ str i)%string with (category_at i);
        [apply category_rank_at|].
      unfold category_at. change (List.length labels) with 3.
      destruct (Nat.ltb_spec i 3); [lia | reflexivity]. }
    apply Hrank in Hk as [HiN Hnth].
    destruct (nth_error df_sorted i) as [r|] eqn:Hr.
    2:{ apply nth_error_None in Hr. lia. }
    destruct (Hrow i r Hr) as [Hid He].
    exists r. subst k. rewrite <- Hid. auto.
  - intro H5.
    destruct (Hlevel 3) as (r3 & H3 & _ & Hl3 & _); [lia | lia |].
    destruct (Hlevel 4) as (r4 & H4 & _ & Hl4 & _); [lia | lia |].
    exists r3, r4. auto.
Qed.

End Positions_of_the_sort.

(** ** More on the run of the script *)

Lemma centroid_markers_marks (df : DataFrame) (risk_map color_map : Dict.dict)
    (markers : list marker) :
  centroid_markers df risk_map color_map = Ok markers ->
  Forall2 (marks risk_map color_map) df markers.
Proof.
  revert markers. induction df as [|r df IH]; intros markers; simpl.
  - intros [= <-]. constructor.
  - unfold Dict.getitem.
    destruct (Dict.get color_map (Cluster_Label r)) as [color|] eqn:Hc;
      [|discriminate].
    destruct (Dict.get risk_map (Cluster_Label r)) as [risk|] eqn:Hr;
      [|discriminate].
    simpl.
    destruct (centroid_markers df risk_map color_map) as [ms|];
      [|discriminate].
    intros [= <-]. constructor; [|now apply IH].
    unfold marks. simpl. eauto 6.
Qed.

Lemma Forall2_nth_error {A B : Type} (R : A -> B -> Prop)
    (l : list A) (l' : list B) :
  Forall2 R l l' ->
  forall k a, nth_error l k = Some a ->
  exists b, nth_error l' k = Some b /\ R a b.
Proof.
  induction 1 as [|x y l l' Hxy _ IH]; intros [|k] a Ha;
    simpl in Ha; try discriminate.
  - injection Ha as <-. exists y. auto.
  - now apply IH.
Qed.

(** The prediction block rebinds no module-level name. *)
Lemma tab1_keeps_names (val_hujan val_elevasi : float) (g : globals) :
  snd (tab1 val_hujan val_elevasi g) = g.
Proof.
  unfold tab1, then_, read, lift, name, unit_. simpl.
  destruct (g_model g) as [model|]; [|reflexivity].
  destruct (match g_scaler g with
            | Some scaler => transform scaler (val_hujan, val_elevasi)
            | None => Raise (AttributeError "transform")
            end) as [v|]; [|reflexivity].
  destruct (predict model v) as [k|]; [|reflexivity].
  destruct (g_risk_map g) as [rm|]; [|reflexivity].
  destruct (Dict.getitem rm k); [|reflexivity].
  destruct (g_color_map g) as [cm|]; [|reflexivity].
  destruct (Dict.getitem cm k); [|reflexivity].
  destruct (g_df_centers g) as [df|]; [|reflexivity].
  now destruct (centroid_markers df rm cm).
Qed.

(** X1.  [load_models] returns both objects or neither: when it returns,
    either both files were read and nothing was shown, or the pair is
    [(None, None)] and its message was shown once more. *)
Theorem load_models_all_or_nothing (disk : files) (g g' : globals)
    (model : option Model) (scaler : option Scaler) :
  load_models disk g = (Ok (model, scaler), g') ->
  (exists m s,
     kmeans_model_joblib disk = Ok m /\ scaler_joblib disk = Ok s /\
     model = Some m /\ scaler = Some s /\ g' = g) \/
  (model = None /\ scaler = None /\
   g_model g' = g_model g /\ g_risk_map g' = g_risk_map g /\
   st_errors g' = st_errors g ++ [model_not_found]).
Proof.
  unfold load_models.
  destruct (kmeans_model_joblib disk) as [m|e]; simpl.
  - destruct (scaler_joblib disk) as [s|e]; simpl.
    + intros [= <- <- <-]. left. exists m, s. auto.
    + destruct e; intros [= <- <- <-]; right; auto.
  - destruct e; intros [= <- <- <-]; right; auto.
Qed.

(** X2.  Only [FileNotFoundError] is handled: any other exception of
    [joblib.load], on either file, leaves [load_models] and ends the run
    at line 70, with nothing shown and nothing bound. *)
Theorem other_load_errors_escape (nargsort : list float -> list nat)
    (disk : files) (val_hujan val_elevasi : float) (e : exn) :
  e <> FileNotFoundError ->
  kmeans_model_joblib disk = Raise e \/
  (exists m, kmeans_model_joblib disk = Ok m /\
             scaler_joblib disk = Raise e) ->
  load_models disk fresh = (Raise e, fresh) /\
  app nargsort disk val_hujan val_elevasi fresh = (Raise e, fresh).
Proof.
  intros He Hdisk.
  assert (Hload : load_models disk fresh = (Raise e, fresh)).
  { unfold load_models.
    destruct Hdisk as [-> | (m & -> & ->)]; simpl;
      destruct e; try reflexivity; congruence. }
  split; [exact Hload|].
  unfold app, then_. now rewrite Hload.
Qed.

(** X3.  When either file is missing, the run shows the message of
    [load_models], skips the first tab and ends in the second tab with
    [NameError] on [df_centers]. *)
Theorem either_file_missing (nargsort : list float -> list nat)
    (disk : files) (val_hujan val_elevasi : float) :
  kmeans_model_joblib disk = Raise FileNotFoundError \/
  (exists m, kmeans_model_joblib disk = Ok m /\
             scaler_joblib disk = Raise FileNotFoundError) ->
  exists g,
    app nargsort disk val_hujan val_elevasi fresh =
      (Raise (NameError "df_centers"), g) /\
    g_model g = None /\ g_scaler g = None /\
    st_errors g = [model_not_found].
Proof.
  intros [Hm | (m & Hm & Hs)]; eexists;
    unfold app, then_, load_models; rewrite Hm; simpl; rewrite ?Hs;
    simpl; repeat split.
Qed.

(** X8.  With an assignment that does not know the predicted cluster, the
    prediction block raises [KeyError] on that cluster id: no category is
    made up. *)
Theorem stale_assignment_raises (g : globals) (model : Model)
    (scaler : Scaler) (risk_map : Dict.dict) (val_hujan val_elevasi : float)
    (input_scaled : float * float) (prediction : nat) :
  g_model g = Some model -> g_scaler g = Some scaler ->
  g_risk_map g = Some risk_map ->
  transform scaler (val_hujan, val_elevasi) = Ok input_scaled ->
  predict model input_scaled = Ok prediction ->
  Dict.get risk_map prediction = None ->
  tab1 val_hujan val_elevasi g = (Raise (KeyError prediction), g).
Proof.
  intros Hm Hs Hr Ht Hp Hget.
  unfold tab1, then_, read, lift, name, unit_, Dict.getitem. simpl.
  now rewrite Hm, Hs, Ht, Hp, Hr, Hget.
Qed.

(** After line 70 has bound what was read, the run is the interpretation
    followed by the two tabs. *)
Lemma app_unpickled (nargsort : list float -> list nat) (model : Model)
    (scaler : Scaler) (val_hujan val_elevasi : float) :
  app nargsort (unpickled model scaler) val_hujan val_elevasi fresh =
  (_ <~ interpret_clusters nargsort ;;;
   analysis <~ tab1 val_hujan val_elevasi ;;;
   table <~ tab2 ;;;
   unit_ (analysis, table)) (loaded model scaler).
Proof. reflexivity. Qed.

Section Run.

Variable nargsort : list float -> list nat.
Hypothesis nargsort_indexer : indexer_of nargsort.

(** X11.  An exception of [scaler.inverse_transform] leaves
    [get_cluster_info] and ends the run at line 118: the model and the
    scaler are bound, the assignment is not, and no tab is drawn. *)
Theorem scaler_failure_stops_the_run (model : Model) (scaler : Scaler)
    (val_hujan val_elevasi : float) (e : exn) :
  inverse_transform scaler (cluster_centers_ model) = Raise e ->
  get_cluster_info nargsort model scaler = Raise e /\
  app nargsort (unpickled model scaler) val_hujan val_elevasi fresh =
    (Raise e, loaded model scaler).
Proof.
  intro He.
  assert (H : get_cluster_info nargsort model scaler = Raise e)
    by (unfold get_cluster_info; now rewrite He).
  split; [exact H|].
  unfold app, then_, load_models, bind_models, interpret_clusters, unpickled.
  simpl. now rewrite H.
Qed.

(** X9.  When the files load and the scaler and the model accept the
    input, a run goes through both tabs.  The status shown is the category
    and the colour of the predicted cluster, the plot has one marker per
    centre, in cluster order, the marker of the predicted cluster has the
    colour and the name of the status, and the table has one row per
    centre. *)
Theorem run_goes_through (model : Model) (scaler : Scaler)
    (cs : list features) (val_hujan val_elevasi : float)
    (input_scaled : float * float) (prediction : nat) :
  inverse_transform scaler (cluster_centers_ model) = Ok cs ->
  transform scaler (val_hujan, val_elevasi) = Ok input_scaled ->
  predict model input_scaled = Ok prediction ->
  prediction < List.length cs ->
  exists df_centers risk_map color_map view table,
    get_cluster_info nargsort model scaler =
      Ok (df_centers, risk_map, color_map) /\
    app nargsort (unpickled model scaler) val_hujan val_elevasi fresh =
      (Ok (Some view, table),
       interpreted model scaler (df_centers, risk_map, color_map)) /\
    Dict.get risk_map prediction = Some (result_text view) /\
    Dict.get color_map prediction = Some (result_color view) /\
    Forall2 (marks risk_map color_map) df_centers (centroids view) /\
    (exists m, nth_error (centroids view) prediction = Some m /\
               marker_color m = result_color view /\
               marker_name m = ("Pusat " ++ result_text view)%string) /\
    List.length table = List.length cs.
Proof.
  intros Hcs Ht Hp Hk.
  pose proof (get_cluster_info_closed _ _ _ _ nargsort_indexer Hcs) as Hinfo.
  set (risk_map := combine (nargsort (map snd cs))
                     (map category_at (seq 0 (List.length cs)))) in *.
  set (color_map := combine (nargsort (map snd cs))
                      (map color_at (seq 0 (List.length cs)))) in *.
  set (g := interpreted model scaler (centers_frame cs, risk_map, color_map)).
  pose proof (indexer_length nargsort (map snd cs) nargsort_indexer) as Hlen.
  rewrite length_map in Hlen.
  assert (HP : Permutation (nargsort (map snd cs)) (seq 0 (List.length cs))).
  { rewrite <- (length_map snd cs). apply nargsort_indexer. }
  assert (Hkr : Dict.keys risk_map = nargsort (map snd cs))
    by (apply keys_combine; now rewrite category_at_length).
  assert (Hkc : Dict.keys color_map = nargsort (map snd cs))
    by (apply keys_combine; now rewrite color_at_length).
  assert (Hin : forall k, k < List.length cs ->
            In k (nargsort (map snd cs))).
  { intros k Hlt. eapply Permutation_in; [symmetry; exact HP|].
    apply in_seq. lia. }
  assert (Hkeys : forall r, In r (centers_frame cs) ->
            In (Cluster_Label r) (Dict.keys risk_map) /\
            In (Cluster_Label r) (Dict.keys color_map)).
  { intros r Hr. rewrite Hkr, Hkc.
    assert (In (Cluster_Label r) (seq 0 (List.length cs))) as Hl.
    { rewrite <- centers_frame_labels. now apply in_map. }
    apply in_seq in Hl. split; apply Hin; lia. }
  destruct (get_keys risk_map prediction) as [text Htext];
    [rewrite Hkr; now apply Hin|].
  destruct (get_keys color_map prediction) as [color Hcolor];
    [rewrite Hkc; now apply Hin|].
  pose proof (tab1_outcome model scaler (centers_frame cs) risk_map color_map
                val_hujan val_elevasi Hkeys) as Hout.
  cbv zeta in Hout. fold g in Hout.
  rewrite Ht, Hp, Htext, Hcolor in Hout. destruct Hout as [ms Hms].
  pose proof (tab1_keeps_names val_hujan val_elevasi g) as Hsame.
  assert (Hmarks : Forall2 (marks risk_map color_map) (centers_frame cs) ms).
  { apply centroid_markers_marks.
    revert Hms. unfold tab1, then_, read, lift, name, unit_, Dict.getitem, g.
    simpl. rewrite Ht, Hp, Htext, Hcolor. simpl.
    destruct (centroid_markers (centers_frame cs) risk_map color_map);
      simpl; congruence. }
  exists (centers_frame cs), risk_map, color_map.
  exists {| result_text := text; result_color := color; centroids := ms |}.
  eexists.
  split; [exact Hinfo|]. split.
  - rewrite app_unpickled. unfold then_ at 1.
    destruct (interpret_clusters_loaded nargsort model scaler _ Hinfo)
      as [-> _].
    unfold then_ at 1.
    assert (Hrun : tab1 val_hujan val_elevasi g =
                   (Ok (Some {| result_text := text; result_color := color;
                                centroids := ms |}), g)).
    { rewrite (surjective_pairing (tab1 val_hujan val_elevasi g)).
      f_equal; [exact Hms | exact Hsame]. }
    change (tab1 val_hujan val_elevasi _)
      with (tab1 val_hujan val_elevasi g).
    rewrite Hrun. reflexivity.
  - simpl. repeat split; auto.
    + assert (Hrow : exists r, nth_error (centers_frame cs) prediction = Some r
                               /\ Cluster_Label r = prediction).
      { destruct (nth_error (centers_frame cs) prediction) as [r|] eqn:Hr.
        2:{ apply nth_error_None in Hr. rewrite centers_frame_length in Hr.
            lia. }
        exists r. split; [reflexivity|].
        pose proof (centers_frame_labels cs) as Hl.
        apply (f_equal (fun l => nth_error l prediction)) in Hl.
        rewrite nth_error_map, Hr in Hl. simpl in Hl.
        rewrite nth_error_nth' with (d := 0) in Hl
          by (rewrite length_seq; lia).
        rewrite seq_nth in Hl by lia. now injection Hl. }
      destruct Hrow as (r & Hr & Hlabel).
      destruct (Forall2_nth_error _ _ _ Hmarks _ _ Hr) as (m & Hm & Hrm).
      exists m. split; [exact Hm|].
      destruct Hrm as (_ & _ & Hmc & risk & Hmr & Hname).
      rewrite Hlabel in Hmc, Hmr. simpl in Hname. split; congruence.
    + now rewrite length_map, centers_frame_length.
Qed.

End Run.

(** ** Independence of the sorting algorithm *)

(** Two lists sorted by an antisymmetric relation, with the same elements,
    are equal. *)
Lemma sorted_unique {A : Type} (R : A -> A -> Prop) (l l' : list A) :
  (forall x y, R x y -> R y x -> x = y) ->
  StronglySorted R l -> StronglySorted R l' -> Permutation l l' -> l = l'.
Proof.
  intro Hanti. revert l'. induction l as [|a l IH]; intros l' Hl Hl' HP.
  - now apply Permutation_nil in HP.
  - destruct l' as [|b l'].
    + symmetry in HP. now apply Permutation_nil in HP.
    + apply StronglySorted_inv in Hl as [Hl Ha].
      apply StronglySorted_inv in Hl' as [Hl' Hb].
      rewrite Forall_forall in Ha, Hb.
      assert (a = b) as ->.
      { assert (In a (b :: l')) as [?|Ia]
          by (eapply Permutation_in; [exact HP | now left]); [congruence|].
        assert (In b (a :: l)) as [?|Ib]
          by (eapply Permutation_in; [symmetry; exact HP | now left]);
          [congruence|].
        apply Hanti; auto. }
      f_equal. apply IH; auto. eapply Permutation_cons_inv, HP.
Qed.

Lemma ltb_asym (x y : float) :
  Float64.ltb x y = true -> Float64.ltb y x = true -> False.
Proof.
  destruct x, y; simpl; try discriminate.
  rewrite !Z.ltb_lt. lia.
Qed.

(** X12.  When no two centres share an elevation (and none is NaN), the
    result of [get_cluster_info] is the same for every sorting algorithm
    that sorts: the choice of [kind] matters for ties only. *)
Theorem distinct_elevations_fix_the_assignment
    (nargsort nargsort' : list float -> list nat)
    (model : Model) (scaler : Scaler) (cs : list features) :
  indexer_of nargsort -> ascending nargsort ->
  indexer_of nargsort' -> ascending nargsort' ->
  inverse_transform scaler (cluster_centers_ model) = Ok cs ->
  (forall a b, a < List.length cs -> b < List.length cs -> a <> b ->
     Float64.ltb (elevation cs a) (elevation cs b) = true \/
     Float64.ltb (elevation cs b) (elevation cs a) = true) ->
  get_cluster_info nargsort model scaler =
  get_cluster_info nargsort' model scaler.
Proof.
  intros HP HS HP' HS' Hcs Hdistinct.
  rewrite (get_cluster_info_closed _ _ _ _ HP Hcs).
  rewrite (get_cluster_info_closed _ _ _ _ HP' Hcs).
  set (R := fun i j : nat =>
              i = j \/ Float64.ltb (elevation cs i) (elevation cs j) = true).
  assert (Hstrict : forall sort, indexer_of sort -> ascending sort ->
            StronglySorted R (sort (map snd cs))).
  { intros sort Hp Hs.
    apply StronglySorted_weaken with (2 := Hs (map snd cs)).
    intros x y Hx Hy Hxy. unfold R.
    apply (Permutation_in _ (Hp _)), in_seq in Hx.
    apply (Permutation_in _ (Hp _)), in_seq in Hy.
    rewrite length_map in Hx, Hy.
    destruct (Nat.eq_dec x y) as [|Hne]; [now left|]. right.
    destruct (Hdistinct x y) as [H|H]; try lia; [exact H|].
    apply ltb_na_last_leb in H. unfold elevation in H. congruence. }
  assert (Heq : nargsort (map snd cs) = nargsort' (map snd cs)).
  { apply (sorted_unique R); auto.
    - intros x y [->|Hxy] [Hyx|Hyx]; auto.
      exfalso. eapply ltb_asym; eassumption.
    - rewrite (HP (map snd cs)). symmetry. apply HP'. }
  now rewrite Heq.
Qed.

(** ** The further properties at work on concrete models *)

Lemma load_models_all_or_nothing_missing :
  st_errors (snd (load_models missing_files fresh)) = [model_not_found].
Proof.
  destruct (load_models_all_or_nothing missing_files fresh
              (snd (load_models missing_files fresh)) None None eq_refl)
    as [(m & s & _ & _ & Hm & _) | (_ & _ & _ & _ & Herr)].
  - discriminate Hm.
  - exact Herr.
Defined.

Lemma other_load_errors_escape_truncated :
  load_models truncated_pickle fresh =
    (Raise (ValueError "EOF: reading array data"), fresh) /\
  app stable_nargsort truncated_pickle (of_Z 250) (of_Z 5) fresh =
    (Raise (ValueError "EOF: reading array data"), fresh).
Proof.
  apply (other_load_errors_escape stable_nargsort truncated_pickle
           (of_Z 250) (of_Z 5) (ValueError "EOF: reading array data")).
  - discriminate.
  - left. reflexivity.
Defined.

Lemma either_file_missing_scaler :
  exists g,
    app stable_nargsort (scaler_missing (kmeans lhokseumawe))
      (of_Z 250) (of_Z 5) fresh = (Raise (NameError "df_centers"), g) /\
    g_model g = None /\ g_scaler g = None /\
    st_errors g = [model_not_found].
Proof.
  apply (either_file_missing stable_nargsort
           (scaler_missing (kmeans lhokseumawe)) (of_Z 250) (of_Z 5)).
  right. exists (kmeans lhokseumawe). split; reflexivity.
Defined.

Lemma stale_assignment_after_reload :
  tab1 (of_Z 100) (of_Z 60)
    (interpreted (kmeans five_centers) unit_scaler
       (centers_frame lhokseumawe,
        combine (stable_nargsort (map snd lhokseumawe))
          (map category_at (seq 0 3)),
        combine (stable_nargsort (map snd lhokseumawe))
          (map color_at (seq 0 3)))) =
  (Raise (KeyError 3),
   interpreted (kmeans five_centers) unit_scaler
     (centers_frame lhokseumawe,
      combine (stable_nargsort (map snd lhokseumawe))
        (map category_at (seq 0 3)),
      combine (stable_nargsort (map snd lhokseumawe))
        (map color_at (seq 0 3)))).
Proof.
  assert (Hp : predict (kmeans five_centers) (of_Z 100, of_Z 60) = Ok 3)
    by (vm_compute; reflexivity).
  assert (Hget : Dict.get
                   (combine (stable_nargsort (map snd lhokseumawe))
                      (map category_at (seq 0 3))) 3 = None)
    by (vm_compute; reflexivity).
  apply stale_assignment_raises
    with (model := kmeans five_centers) (scaler := unit_scaler)
         (risk_map := combine (stable_nargsort (map snd lhokseumawe))
                        (map category_at (seq 0 3)))
         (input_scaled := (of_Z 100, of_Z 60));
    [reflexivity | reflexivity | reflexivity | reflexivity
    | exact Hp | exact Hget].
Defined.

Lemma scaler_failure_unfitted :
  get_cluster_info stable_nargsort (kmeans lhokseumawe) unfitted_scaler =
    Raise (ValueError "not fitted") /\
  app stable_nargsort (unpickled (kmeans lhokseumawe) unfitted_scaler)
    (of_Z 250) (of_Z 5) fresh =
    (Raise (ValueError "not fitted"),
     loaded (kmeans lhokseumawe) unfitted_scaler).
Proof.
  exact (scaler_failure_stops_the_run stable_nargsort (kmeans lhokseumawe)
           unfitted_scaler (of_Z 250) (of_Z 5) (ValueError "not fitted")
           eq_refl).
Defined.

Lemma run_goes_through_lhokseumawe :
  exists view table g,
    app stable_nargsort (unpickled (kmeans lhokseumawe) unit_scaler)
      (of_Z 400) (of_Z 1) fresh = (Ok (Some view, table), g) /\
    result_text view = "Sangat Rawan (Bahaya)"%string /\
    result_color view = "#FF4B4B"%string /\
    List.length table = 3.
Proof.
  destruct (run_goes_through stable_nargsort stable_nargsort_indexer
              (kmeans lhokseumawe) unit_scaler lhokseumawe
              (of_Z 400) (of_Z 1) (of_Z 400, of_Z 1) 1
              eq_refl eq_refl ltac:(vm_compute; reflexivity)
              ltac:(simpl; lia))
    as (df & rm & cm & view & table & Hinfo & Hrun & Htext & Hcolor & _ & _
        & Hlen).
  exists view, table, (interpreted (kmeans lhokseumawe) unit_scaler (df, rm, cm)).
  rewrite (get_cluster_info_closed _ _ _ _ stable_nargsort_indexer
             (eq_refl : inverse_transform unit_scaler
                          (cluster_centers_ (kmeans lhokseumawe)) =
                        Ok lhokseumawe)) in Hinfo.
  injection Hinfo as <- <- <-.
  change (Some "Sangat Rawan (Bahaya)"%string = Some (result_text view))
    in Htext.
  change (Some "#FF4B4B"%string = Some (result_color view)) in Hcolor.
  injection Htext as <-. injection Hcolor as <-. auto.
Defined.

Lemma colour_follows_category_five :
  exists df_centers risk_mapping colors,
    get_cluster_info stable_nargsort (kmeans five_centers) unit_scaler =
      Ok (df_centers, risk_mapping, colors) /\
    ((exists i, 3 <= i /\
        Dict.get risk_mapping 2 = Some ("Level " ++ str i)%string) <->
     Dict.get colors 2 = Some "#808080"%string).
Proof.
  pose proof (get_cluster_info_closed stable_nargsort (kmeans five_centers)
                unit_scaler five_centers stable_nargsort_indexer eq_refl)
    as Hinfo.
  do 3 eexists. split; [exact Hinfo|].
  apply (colour_follows_category stable_nargsort stable_nargsort_indexer
           (kmeans five_centers) unit_scaler five_centers _ _ _
           eq_refl Hinfo 2).
  simpl. lia.
Defined.

Lemma categories_distinct_lhokseumawe :
  exists df_centers risk_mapping colors,
    get_cluster_info stable_nargsort (kmeans lhokseumawe) unit_scaler =
      Ok (df_centers, risk_mapping, colors) /\
    Dict.get risk_mapping 1 = Some "Sangat Rawan (Bahaya)"%string /\
    1 = 1.
Proof.
  pose proof (get_cluster_info_closed stable_nargsort (kmeans lhokseumawe)
                unit_scaler lhokseumawe stable_nargsort_indexer eq_refl)
    as Hinfo.
  do 3 eexists. split; [exact Hinfo|].
  assert (H : Dict.get
                (combine (stable_nargsort (map snd lhokseumawe))
                   (map category_at (seq 0 (List.length lhokseumawe)))) 1 =
              Some "Sangat Rawan (Bahaya)"%string)
    by (vm_compute; reflexivity).
  split; [exact H|].
  exact (categories_distinct stable_nargsort stable_nargsort_indexer
           (kmeans lhokseumawe) unit_scaler lhokseumawe _ _ _
           eq_refl Hinfo 1 1 _ H H).
Defined.

Lemma categories_used_five :
  exists df_centers risk_mapping colors,
    get_cluster_info stable_nargsort (kmeans five_centers) unit_scaler =
      Ok (df_centers, risk_mapping, colors) /\
    map snd risk_mapping =
      firstn (List.length five_centers) labels ++
      map (fun i => ("Level " ++ str i)%string)
        (seq 3 (List.length five_centers - 3)) /\
    map snd colors =
      firstn (List.length five_centers) color_codes ++
      repeat "#808080"%string (List.length five_centers - 3).
Proof.
  pose proof (get_cluster_info_closed stable_nargsort (kmeans five_centers)
                unit_scaler five_centers stable_nargsort_indexer eq_refl)
    as Hinfo.
  do 3 eexists. split; [exact Hinfo|].
  exact (categories_used stable_nargsort stable_nargsort_indexer
           (kmeans five_centers) unit_scaler five_centers _ _ _
           eq_refl Hinfo).
Defined.

Lemma rank_respects_elevation_lhokseumawe :
  exists df_centers risk_mapping colors,
    get_cluster_info stable_nargsort (kmeans lhokseumawe) unit_scaler =
      Ok (df_centers, risk_mapping, colors) /\
    rank_of risk_mapping 1 = Some 0 /\
    rank_of risk_mapping 2 = Some 2 /\
    na_last_leb (elevation lhokseumawe 1) (elevation lhokseumawe 2) = true.
Proof.
  pose proof (get_cluster_info_closed stable_nargsort (kmeans lhokseumawe)
                unit_scaler lhokseumawe stable_nargsort_indexer eq_refl)
    as Hinfo.
  do 3 eexists. split; [exact Hinfo|].
  assert (H1 : rank_of
                 (combine (stable_nargsort (map snd lhokseumawe))
                    (map category_at (seq 0 (List.length lhokseumawe)))) 1 =
               Some 0) by (vm_compute; reflexivity).
  assert (H2 : rank_of
                 (combine (stable_nargsort (map snd lhokseumawe))
                    (map category_at (seq 0 (List.length lhokseumawe)))) 2 =
               Some 2) by (vm_compute; reflexivity).
  split; [exact H1|]. split; [exact H2|].
  apply (rank_respects_elevation stable_nargsort stable_nargsort_indexer
           (kmeans lhokseumawe) unit_scaler lhokseumawe _ _ _
           eq_refl Hinfo stable_nargsort_ascending 1 2 0 2 H1 H2).
  lia.
Defined.

Lemma nan_centres_rank_last_dead_sensor :
  isnan (elevation dead_sensor 1) = false /\
  isnan (elevation dead_sensor 0) = true /\
  exists df_centers risk_mapping colors rank_a rank_b,
    get_cluster_info stable_nargsort (kmeans dead_sensor) unit_scaler =
      Ok (df_centers, risk_mapping, colors) /\
    rank_of risk_mapping 1 = Some rank_a /\
    rank_of risk_mapping 0 = Some rank_b /\
    rank_a < rank_b.
Proof.
  split; [reflexivity|]. split; [reflexivity|].
  pose proof (get_cluster_info_closed stable_nargsort (kmeans dead_sensor)
                unit_scaler dead_sensor stable_nargsort_indexer eq_refl)
    as Hinfo.
  destruct (nan_centres_rank_last stable_nargsort stable_nargsort_indexer
              (kmeans dead_sensor) unit_scaler dead_sensor _ _ _
              eq_refl Hinfo stable_nargsort_ascending 1 0
              ltac:(simpl; lia) ltac:(simpl; lia) eq_refl eq_refl)
    as (ra & rb & Ha & Hb & Hlt).
  do 3 eexists. exists ra, rb. split; [exact Hinfo|]. auto.
Defined.

Lemma distinct_elevations_lhokseumawe :
  get_cluster_info stable_nargsort (kmeans lhokseumawe) unit_scaler =
  get_cluster_info reversing_nargsort (kmeans lhokseumawe) unit_scaler.
Proof.
  apply (distinct_elevations_fix_the_assignment stable_nargsort
           reversing_nargsort (kmeans lhokseumawe) unit_scaler lhokseumawe
           stable_nargsort_indexer stable_nargsort_ascending
           reversing_nargsort_indexer reversing_nargsort_ascending eq_refl).
  intros [|[|[|a]]] [|[|[|b]]] Ha Hb Hab; simpl in Ha, Hb; try lia;
    vm_compute; auto.
Defined.

Lemma fallback_five_centers :
  3 < List.length five_centers /\
  map (elevation five_centers) [1; 0; 4; 2; 3] =
    [of_Z 2; of_Z 5; of_Z 12; of_Z 40; of_Z 60] /\
  exists df_centers risk_mapping colors df_sorted,
    get_cluster_info stable_nargsort (kmeans five_centers) unit_scaler =
      Ok (df_centers, risk_mapping, colors) /\
    sort_values_Elevasi stable_nargsort df_centers = Ok df_sorted /\
    map Cluster_Label df_sorted = [1; 0; 4; 2; 3] /\
    Dict.get risk_mapping 2 = Some "Level 3"%string /\
    Dict.get risk_mapping 3 = Some "Level 4"%string.
Proof.
  assert (HN : 3 < List.length five_centers) by (simpl; lia).
  split; [exact HN|]. split; [reflexivity|].
  destruct (fallback_beyond_scale stable_nargsort stable_nargsort_indexer
              stable_nargsort_ascending (kmeans five_centers) unit_scaler
              five_centers eq_refl HN)
    as (df & rm & cm & ds & Hinfo & Hfeat & Hlab & Hsort & _ & _ & _ & _
        & H5).
  destruct (H5 eq_refl) as (r3 & r4 & Hr3 & Hr4 & H3 & H4).
  assert (Hds : map Cluster_Label ds = [1; 0; 4; 2; 3]).
  { assert (Hdf : df = centers_frame five_centers).
    { pose proof (get_cluster_info_closed stable_nargsort
                    (kmeans five_centers) unit_scaler five_centers
                    stable_nargsort_indexer eq_refl) as Hc.
      congruence. }
    assert (Hc : exists ds0,
              sort_values_Elevasi stable_nargsort
                (centers_frame five_centers) = Ok ds0 /\
              map Cluster_Label ds0 = [1; 0; 4; 2; 3])
      by (eexists; split; vm_compute; reflexivity).
    destruct Hc as (ds0 & Hs0 & Hl0). congruence. }
  assert (Hl3 : Cluster_Label r3 = 2).
  { apply (map_nth_error Cluster_Label) in Hr3. rewrite Hds in Hr3.
    simpl in Hr3. congruence. }
  assert (Hl4 : Cluster_Label r4 = 3).
  { apply (map_nth_error Cluster_Label) in Hr4. rewrite Hds in Hr4.
    simpl in Hr4. congruence. }
  rewrite Hl3 in H3. rewrite Hl4 in H4.
  exists df, rm, cm, ds. auto 6.
Defined.

Lemma ties_on_level_ground :
  keeps_ties_in_order stable_nargsort (map snd level_ground) /\
  Float64.eqb (elevation level_ground 0) (elevation level_ground 1) = true /\
  exists df_centers risk_mapping colors,
    get_cluster_info stable_nargsort (kmeans level_ground) unit_scaler =
      Ok (df_centers, risk_mapping, colors) /\
    rank_of risk_mapping 0 = Some 0 /\
    rank_of risk_mapping 1 = Some 1 /\
    Dict.get risk_mapping 0 = Some (category_at 0) /\
    Dict.get risk_mapping 1 = Some (category_at 1).
Proof.
  assert (Hkeep : keeps_ties_in_order stable_nargsort (map snd level_ground))
    by apply stable_nargsort_stable.
  split; [exact Hkeep|].
  split; [vm_compute; reflexivity|].
  destruct (ties_follow_the_sort stable_nargsort stable_nargsort_indexer
              (kmeans level_ground) unit_scaler level_ground eq_refl)
    as (df & rm & cm & Hinfo & _ & Hrank & _ & Hflat).
  assert (Hall : forall a b, a < List.length level_ground ->
            b < List.length level_ground ->
            Float64.eqb (elevation level_ground a) (elevation level_ground b)
            = true).
  { intros [|[|a]] [|[|b]] Ha Hb; simpl in Ha, Hb; try lia;
      vm_compute; reflexivity. }
  exists df, rm, cm. split; [exact Hinfo|].
  split; [apply Hrank; split; [simpl; lia | vm_compute; reflexivity]|].
  split; [apply Hrank; split; [simpl; lia | vm_compute; reflexivity]|].
  split; apply (Hflat Hkeep Hall); simpl; lia.
Defined.

Lemma ties_are_contiguous_plateau :
  exists df_centers risk_mapping colors,
    get_cluster_info stable_nargsort (kmeans plateau) unit_scaler =
      Ok (df_centers, risk_mapping, colors) /\
    rank_of risk_mapping 0 = Some 0 /\
    rank_of risk_mapping 2 = Some 2 /\
    rank_of risk_mapping 1 = Some 1 /\
    Float64.eqb (elevation plateau 0) (elevation plateau 2) = true /\
    Float64.eqb (elevation plateau 0) (elevation plateau 1) = true.
Proof.
  pose proof (get_cluster_info_closed stable_nargsort (kmeans plateau)
                unit_scaler plateau stable_nargsort_indexer eq_refl)
    as Hinfo.
  do 3 eexists. split; [exact Hinfo|].
  assert (H0 : rank_of
                 (combine (stable_nargsort (map snd plateau))
                    (map category_at (seq 0 (List.length plateau)))) 0 =
               Some 0) by (vm_compute; reflexivity).
  assert (H2 : rank_of
                 (combine (stable_nargsort (map snd plateau))
                    (map category_at (seq 0 (List.length plateau)))) 2 =
               Some 2) by (vm_compute; reflexivity).
  assert (H1 : rank_of
                 (combine (stable_nargsort (map snd plateau))
                    (map category_at (seq 0 (List.length plateau)))) 1 =
               Some 1) by (vm_compute; reflexivity).
  assert (Htie : Float64.eqb (elevation plateau 0) (elevation plateau 2)
                 = true) by (vm_compute; reflexivity).
  split; [exact H0|]. split; [exact H2|]. split; [exact H1|].
  split; [exact Htie|].
  apply (ties_are_contiguous stable_nargsort stable_nargsort_indexer
           (kmeans plateau) unit_scaler plateau _ _ _
           eq_refl Hinfo stable_nargsort_ascending 0 2 1 0 2 1 H0 H2 H1);
    [lia | lia | exact Htie].
Defined.
